(** * SDP creation helpers ([src/stream_output/sdp.c])

    A shallow embedding of VLC's SDP builder and the properties its
    specification states about it.

    - C strings are [string]s (the bytes before the terminating NUL).
    - [unsigned], [socklen_t] and [uint64_t] values are [N], [int] is [Z];
      the wrap-around of a conversion is written out where [printf]
      reinterprets an argument.
    - The [printf] family is modelled by [format], which is partial: a
      conversion that meets an argument of another type is undefined
      behaviour in C and yields [None].
    - Heap blocks live in a [gmap]; [realloc] and [asprintf] draw their
      outcome from a tape carried by the store, so that allocation failure
      and moved blocks are both covered.
    - What the file takes from elsewhere in VLC or from the C library
      ([IsUTF8], [vlc_getnameinfo], [net_SockAddrIsMulticast],
      [gethostname], [NTPtime64], [PACKAGE_STRING]) is gathered in the
      record [externals].
    - [assert] is the macro of [<assert.h>]: whether it checks anything is
      decided by the build ([NDEBUG]), which [sdp_AddMedia] takes as its
      first argument. *)

From Stdlib Require Import ZArith NArith String Ascii List Bool DecimalString Lia.
From stdpp Require Import gmap.
Import ListNotations.

Open Scope string_scope.

(* stdpp blocks the unfolding of string append; the proofs below compute
   with it. *)
#[global] Arguments String.append !_ _ / : simpl nomatch.

(** ** Characters and C string primitives *)

Module CStr.

Definition CR : ascii := "013"%char.
Definition LF : ascii := "010"%char.
Definition CRLF : string := String CR (String LF EmptyString).

(** [sizeof] of a string literal counts the terminating NUL. *)
Definition sizeof_lit (s : string) : nat := S (String.length s).

(** [strchr s c]: the suffix of [s] starting at the first [c], if any
    (the C function returns a pointer to that position, or NULL). *)
Fixpoint strchr (s : string) (c : ascii) : option string :=
  match s with
  | EmptyString => None
  | String d rest => if (d =? c)%char then Some s else strchr rest c
  end.

(** [occurs c s]: the character [c] appears in [s]. *)
Fixpoint occurs (c : ascii) (s : string) : Prop :=
  match s with
  | EmptyString => False
  | String d rest => d = c \/ occurs c rest
  end.

(** Boolean test that a character is absent. *)
Fixpoint lacks (c : ascii) (s : string) : bool :=
  match s with
  | EmptyString => true
  | String d rest => negb (d =? c)%char && lacks c rest
  end.

(** [buf[i]], with NUL past the end of the text. *)
Fixpoint char_at (i : nat) (s : string) {struct s} : ascii :=
  match s, i with
  | EmptyString, _ => zero
  | String c _, O => c
  | String _ rest, S j => char_at j rest
  end.

(** [buf + i]: the text from offset [i] on. *)
Fixpoint skip (i : nat) (s : string) : string :=
  match i, s with
  | O, _ => s
  | S j, String _ rest => skip j rest
  | S _, EmptyString => EmptyString
  end.

(** The first [i] characters. *)
Fixpoint keep (i : nat) (s : string) : string :=
  match i, s with
  | S j, String c rest => String c (keep j rest)
  | _, _ => EmptyString
  end.

(** [buf[i] = c] for an offset inside the text. *)
Fixpoint poke (i : nat) (c : ascii) (s : string) {struct s} : string :=
  match s, i with
  | EmptyString, _ => EmptyString
  | String _ rest, O => String c rest
  | String d rest, S j => String d (poke j c rest)
  end.

(** Writing the C string [t] at [buf + off]: the text up to [off] is kept
    and [t], with its terminator, follows. *)
Definition write_at (off : nat) (t : string) (buf : string) : string :=
  keep off buf ++ t.

(** [*strchr (buf, c) = 0]: cut the text at the first [c]. *)
Fixpoint cut_at (c : ascii) (s : string) : string :=
  match s with
  | EmptyString => EmptyString
  | String d rest => if (d =? c)%char then EmptyString else String d (cut_at c rest)
  end.

(** [ends_with suf s]: [s] is some text followed by [suf]. *)
Definition ends_with (suf s : string) : Prop := exists pre, s = pre ++ suf.

Definition starts_with (pre s : string) : Prop := exists suf, s = pre ++ suf.

(** Boolean suffix test, for evaluation. *)
Definition has_suffix (suf s : string) : bool :=
  (skip (String.length s - String.length suf) s =? suf)%string
  && (String.length suf <=? String.length s)%nat.

End CStr.
Import CStr.

(** ** The [printf] family *)

Module Printf.

(** One variadic argument, after the default promotions. [AVaList] is a
    [va_list] object handed over as an ordinary argument. *)
#[warnings="-register-all"]
Inductive arg : Type :=
| AInt (z : Z)
| AUInt (n : N)
| AULongLong (n : N)
| AChar (c : ascii)
| AStr (s : string)
| AVaList (ap : list arg).

Definition dec_unsigned (n : N) : string := NilZero.string_of_uint (N.to_uint n).
Definition dec_signed (z : Z) : string := NilZero.string_of_int (Z.to_int z).

(** A 32-bit pattern read as [unsigned]. *)
Definition as_unsigned32 (z : Z) : N := Z.to_N (z mod 2 ^ 32).

(** A 32-bit pattern read as [int]. *)
Definition as_signed32 (n : N) : Z :=
  let r := (Z.of_N n mod 2 ^ 32)%Z in
  if (r <? 2 ^ 31)%Z then r else (r - 2 ^ 32)%Z.

Definition emit (c : ascii) (r : option string) : option string :=
  match r with Some s => Some (String c s) | None => None end.

Definition emits (t : string) (r : option string) : option string :=
  match r with Some s => Some (t ++ s) | None => None end.

(** [format fmt args]: the text [printf] produces. The conversions are
    the ones the builder uses: [%s], [%c], [%u], [%d], [%llu] and [%%].
    [%u] and [%d] accept either signedness and reinterpret the 32-bit
    pattern. Arguments left over are ignored, as in C. [None] stands for
    undefined behaviour: an unknown or cut-off conversion, a missing
    argument, or an argument of the wrong type. *)
Fixpoint format (fmt : string) (args : list arg) {struct fmt} : option string :=
  match fmt with
  | EmptyString => Some EmptyString
  | String c rest =>
    if (c =? "%")%char then
      match rest with
      | EmptyString => None
      | String d rest1 =>
        if (d =? "%")%char then emit "%" (format rest1 args)
        else if (d =? "s")%char then
          match args with
          | AStr s :: args' => emits s (format rest1 args')
          | _ => None
          end
        else if (d =? "c")%char then
          match args with
          | AChar x :: args' => emit x (format rest1 args')
          | _ => None
          end
        else if (d =? "u")%char then
          match args with
          | AUInt n :: args' => emits (dec_unsigned (n mod 2 ^ 32)) (format rest1 args')
          | AInt z :: args' => emits (dec_unsigned (as_unsigned32 z)) (format rest1 args')
          | _ => None
          end
        else if (d =? "d")%char then
          match args with
          | AInt z :: args' => emits (dec_signed z) (format rest1 args')
          | AUInt n :: args' => emits (dec_signed (as_signed32 n)) (format rest1 args')
          | _ => None
          end
        else if (d =? "l")%char then
          match rest1 with
          | String e (String f rest3) =>
            if ((e =? "l") && (f =? "u"))%char then
              match args with
              | AULongLong n :: args' =>
                  emits (dec_unsigned (n mod 2 ^ 64)) (format rest3 args')
              | _ => None
              end
            else None
          | _ => None
          end
        else None
      end
    else emit c (format rest args)
  end.

(** [snprintf (NULL, 0, fmt, ...)]: the length the text would have. *)
Definition format_len (fmt : string) (args : list arg) : option nat :=
  match format fmt args with
  | Some s => Some (String.length s)
  | None => None
  end.

End Printf.
Import Printf.

(** ** What the file takes from its surroundings *)

(** A [struct sockaddr]: the family tag and the bytes that follow it. *)
Record sockaddr : Type := Sockaddr { sa_family : N; sa_data : list N }.

(** Platform constants (Linux values; [<sys/socket.h>] and [<netdb.h>]
    are not part of the repository). *)
Definition AF_INET : N := 2.
Definition AF_INET6 : N := 10.
Definition NI_NUMERICHOST : Z := 1.
Definition sa_family_offset : N := 0.
Definition sa_family_size : N := 2.

Definition MAXSDPADDRESS : nat := 47.

(** VLC's format macro for a [uint64_t] in decimal (defined in VLC's
    common header, outside [sdp.c]). *)
Definition I64Fu : string := "%llu".

(** The collaborators of [sdp.c]. [vlc_getnameinfo a len hostlen flags]
    gives the return code and the host text written to the caller's
    buffer; [gethostname] and [NTPtime64] are the values the calls
    deliver; [PACKAGE_STRING] is the build's product string. *)
Record externals : Type := Externals {
  IsUTF8 : string -> bool;
  vlc_getnameinfo : sockaddr -> N -> nat -> Z -> Z * string;
  net_SockAddrIsMulticast : sockaddr -> N -> bool;
  gethostname : string;
  NTPtime64 : N;
  PACKAGE_STRING : string
}.

(** ** The store: heap blocks and the allocator's decisions *)

Module Heap.

Definition loc : Type := positive.

(** A live block: its size in bytes and the C string it holds. *)
Record block : Type := Block { cap : nat; text : string }.

(** What the allocator decides on one request. *)
Inductive grant : Type := Refuse | InPlace | Moved.

Record store : Type := Store { blocks : gmap loc block; tape : list grant }.

(** [Ret] is a normal return; [Abort] a failed [assert]; [Undef] undefined
    behaviour. Each carries the store at that moment. *)
Inductive outcome (A : Type) : Type :=
| Ret (a : A) (m : store)
| Abort (m : store)
| Undef (m : store).
Arguments Ret {A} a m.
Arguments Abort {A} m.
Arguments Undef {A} m.

Definition M (A : Type) : Type := store -> outcome A.

Definition ret {A} (a : A) : M A := fun m => Ret a m.

Definition bind {A B} (c : M A) (k : A -> M B) : M B := fun m =>
  match c m with
  | Ret a m' => k a m'
  | Abort m' => Abort m'
  | Undef m' => Undef m'
  end.

Definition undefined {A} : M A := fun m => Undef m.

(** The C string held at [p], when [p] is live and terminated inside its
    block. *)
Definition text_at (m : store) (p : loc) : option string :=
  match blocks m !! p with
  | Some b => if (String.length (text b) <? cap b)%nat then Some (text b) else None
  | None => None
  end.

Definition strlen (p : loc) : M nat := fun m =>
  match text_at m p with
  | Some s => Ret (String.length s) m
  | None => Undef m
  end.

(** [realloc]: the next decision on the tape ([Refuse] when the tape has
    run out) either fails and leaves the block alone, or resizes it where
    it is, or moves it to a fresh address and frees the old one. The
    bytes that fit are kept. *)
Definition resize (n : nat) (b : block) : block :=
  {| cap := n; text := keep n (text b) |}.

Definition next_grant (m : store) : grant * store :=
  match tape m with
  | g :: t => (g, {| blocks := blocks m; tape := t |})
  | [] => (Refuse, m)
  end.

Definition realloc (p : loc) (n : nat) : M (option loc) := fun m =>
  match blocks m !! p with
  | None => Undef m
  | Some b =>
    let '(g, m1) := next_grant m in
    match g with
    | Refuse => Ret None m1
    | InPlace =>
        Ret (Some p) {| blocks := <[p := resize n b]> (blocks m1); tape := tape m1 |}
    | Moved =>
        let q := fresh (dom (blocks m1)) in
        Ret (Some q)
            {| blocks := <[q := resize n b]> (delete p (blocks m1)); tape := tape m1 |}
    end
  end.

(** [malloc]-like allocation of a block holding [s]. The block is given
    the least capacity that holds the text and its terminator; the C
    library may give more, and the program never learns the capacity. *)
Definition alloc_text (s : string) : M (option loc) := fun m =>
  let '(g, m1) := next_grant m in
  match g with
  | Refuse => Ret None m1
  | _ =>
      let q := fresh (dom (blocks m1)) in
      Ret (Some q)
          {| blocks := <[q := Block (S (String.length s)) s]> (blocks m1);
             tape := tape m1 |}
  end.

(** [asprintf (&p, fmt, ...)]: [None] stands for the return value -1. *)
Definition asprintf (fmt : string) (args : list arg) : M (option loc) :=
  match format fmt args with
  | Some s => alloc_text s
  | None => undefined
  end.

(** [snprintf (NULL, 0, fmt, ...)] and [vsnprintf (NULL, 0, fmt, ap)]. *)
Definition snprintf0 (fmt : string) (args : list arg) : M nat :=
  match format_len fmt args with
  | Some n => ret n
  | None => undefined
  end.

(** [sprintf (p + off, fmt, ...)]: writes the text and its terminator into
    the block and returns the number of characters written. Writing
    through a dead pointer or past the end of the block is undefined. *)
Definition sprintf (p : loc) (off : nat) (fmt : string) (args : list arg) : M nat :=
  fun m =>
  match format fmt args, blocks m !! p with
  | Some s, Some b =>
      if (off + String.length s <? cap b)%nat then
        Ret (String.length s)
            {| blocks := <[p := Block (cap b) (write_at off s (text b))]> (blocks m);
               tape := tape m |}
      else Undef m
  | _, _ => Undef m
  end.

(** [sprintf] into a local array large enough for the text. *)
Definition sprintf_local (fmt : string) (args : list arg) : M string :=
  match format fmt args with
  | Some s => ret s
  | None => undefined
  end.

(** [assert (b)] of [<assert.h>]. The macro depends on the build: where
    [NDEBUG] is defined it expands to [((void)0)] and the condition is not
    looked at; otherwise a false condition ends the program in [abort]. *)
Definition assert (NDEBUG : bool) (b : bool) : M unit := fun m =>
  if NDEBUG then Ret tt m
  else if b then Ret tt m else Abort m.

End Heap.
Import Heap.

Notation "x <- c ;; k" := (bind c (fun x => k))
  (at level 100, c at next level, right associativity).

(** ** The functions of [sdp.c] *)

Section Sdp.

Variable E : externals.

(** [AddressToSDP]: the text left in [buf], or [None] for NULL. *)
Definition AddressToSDP (addr : sockaddr) (addrlen : N) : option string :=
  if (addrlen <? sa_family_offset + sa_family_size)%N then None
  else
    let buf := "IN IP* " in
    match vlc_getnameinfo E addr addrlen (MAXSDPADDRESS - 7) NI_NUMERICHOST with
    | (0%Z, host) =>
        let buf := write_at 7 host buf in
        if (sa_family addr =? AF_INET)%N then
          let buf :=
            if net_SockAddrIsMulticast E addr addrlen then buf ++ "/255" else buf in
          Some (poke 5 "4" buf)
        else if (sa_family addr =? AF_INET6)%N then
          let buf :=
            match strchr buf "%" with
            | Some _ => cut_at "%" buf
            | None => buf
            end in
          Some (poke 5 "6" buf)
        else None
    | _ => None
    end.

Definition IsSDPString (str : string) : bool :=
  match strchr str CR with
  | Some _ => false
  | None =>
    match strchr str LF with
    | Some _ => false
    | None => if negb (IsUTF8 E str) then false else true
    end
  end.

Definition source_filter_fmt : string :=
  CRLF ++ "a=source-filter: incl IN IP%c * %s".

Definition sdp_Start_fmt : string :=
  "v=0"
  ++ CRLF ++ "o=- " ++ I64Fu ++ " " ++ I64Fu ++ " IN IP%c %s"
  ++ CRLF ++ "s=%s"
  ++ CRLF ++ "i=%s"
  ++ "%s%s"
  ++ "%s%s"
  ++ "%s%s"
  ++ CRLF ++ "c=%s"
  ++ CRLF ++ "t=0 0"
  ++ CRLF ++ "a=tool:" ++ PACKAGE_STRING E
  ++ CRLF ++ "a=recvonly"
  ++ CRLF ++ "a=type:broadcast"
  ++ CRLF ++ "a=charset:UTF-8"
  ++ "%s"
  ++ CRLF.

(** [sdp_Start]: the new document's address, or [None] for NULL. A null
    text argument is [None]. *)
Definition sdp_Start (name description url email phone : option string)
    (src : sockaddr) (srclen : N) (addr : sockaddr) (addrlen : N)
  : M (option loc) :=
  let now := NTPtime64 E in
  let preurl := CRLF ++ "u=" in
  let premail := CRLF ++ "e=" in
  let prephone := CRLF ++ "p=" in
  let hostname := gethostname E in
  let name := default "Unnamed" name in
  let description := default "N/A" description in
  let preurl := match url with Some _ => preurl | None => EmptyString end in
  let url := default EmptyString url in
  let premail := match email with Some _ => premail | None => EmptyString end in
  let email := default EmptyString email in
  let prephone := match phone with Some _ => prephone | None => EmptyString end in
  let phone := default EmptyString phone in
  if negb (IsSDPString name) || negb (IsSDPString description)
     || negb (IsSDPString url) || negb (IsSDPString email)
     || negb (IsSDPString phone)
  then ret None
  else
    match AddressToSDP addr addrlen with
    | None => ret None
    | Some connection =>
      sfilter <-
        (if (0 <? srclen)%N then
           match AddressToSDP src srclen with
           | Some machine =>
               sprintf_local source_filter_fmt
                 [AChar (char_at 5 machine); AStr (skip 7 machine)]
           | None => ret EmptyString
           end
         else ret EmptyString) ;;
      asprintf sdp_Start_fmt
        [ AULongLong now; AULongLong now; AChar (char_at 5 connection); AStr hostname;
          AStr name;
          AStr description;
          AStr preurl; AStr url;
          AStr premail; AStr email;
          AStr prephone; AStr phone;
          AStr connection;
          AStr sfilter ]
    end.

End Sdp.

(** The append operations take the value of [*sdp] and give back the
    returned pointer together with the value [*sdp] has on return.

    [vsdp_AddAttribute] measures the value with [vsnprintf (NULL, 0, fmt,
    ap)], which reads the caller's arguments, and then writes it with
    [sprintf (ret + oldlen, fmt, ap)]: the only variadic argument of that
    call is the [va_list] object itself. Nothing is written after the
    value. *)

Definition vsdp_AddAttribute (sdp : loc) (name fmt : string) (ap : list arg)
  : M (option loc * loc) :=
  oldlen <- strlen sdp ;;
  vlen <- snprintf0 fmt ap ;;
  let addlen := sizeof_lit ("a=:" ++ CRLF) + String.length name + vlen in
  ret_ <- realloc sdp (oldlen + addlen) ;;
  match ret_ with
  | None => ret (None, sdp)
  | Some r =>
      n <- sprintf r oldlen "a=%s:" [AStr name] ;;
      let oldlen := oldlen + n in
      _ <- sprintf r oldlen fmt [AVaList ap] ;;
      ret (Some r, r)
  end.

Definition sdp_AddAttribute (sdp : loc) (name : string) (fmt : option string)
    (args : list arg) : M (option loc * loc) :=
  match fmt with
  | Some fmt => vsdp_AddAttribute sdp name fmt args
  | None =>
      oldlen <- strlen sdp ;;
      ret_ <- realloc sdp (oldlen + String.length name + sizeof_lit ("a=" ++ CRLF)) ;;
      match ret_ with
      | None => ret (None, sdp)
      | Some r =>
          _ <- sprintf r oldlen ("a=%s" ++ CRLF) [AStr name] ;;
          ret (Some r, sdp)
      end
  end.

Definition media_fmt : string := "m=%s %u %s %d" ++ CRLF ++ "b=RR:0" ++ CRLF.

Definition sdp_AddMedia (NDEBUG : bool) (sdp : loc) (type protocol : option string)
    (dport : Z) (pt : N) (bw_indep : bool) (bw : N) (rtpmap fmtp : option string)
  : M (option loc * loc) :=
  inlen <- strlen sdp ;;
  let outlen := inlen in
  let type := default "video" type in
  let protocol := default "RTP/AVP" protocol in
  _ <- assert NDEBUG (pt <? 128)%N ;;
  n <- snprintf0 media_fmt [AStr type; AInt dport; AStr protocol; AUInt pt] ;;
  let outlen := outlen + n in
  newsdp <- realloc sdp (outlen + 1) ;;
  match newsdp with
  | None => ret (None, sdp)
  | Some newsdp =>
      let sdp := newsdp in
      _ <- sprintf newsdp inlen media_fmt
             [AStr type; AInt dport; AStr protocol; AUInt pt] ;;
      r1 <- match rtpmap with
            | Some rtpmap =>
                sdp_AddAttribute sdp "rtpmap" (Some "%u %s") [AUInt pt; AStr rtpmap]
            | None => ret (None, sdp)
            end ;;
      let sdp := snd r1 in
      r2 <- match fmtp with
            | Some fmtp =>
                sdp_AddAttribute sdp "fmtp" (Some "%u %s") [AUInt pt; AStr fmtp]
            | None => ret (None, sdp)
            end ;;
      let sdp := snd r2 in
      ret (Some newsdp, sdp)
  end.

(** ** Documents as sequences of lines *)

Module Lines.

(** No carriage return and no line feed. *)
Definition single_line (s : string) : bool := lacks CR s && lacks LF s.

Definition push (c : ascii) (ls : list string) : list string :=
  match ls with
  | l :: rest => String c l :: rest
  | [] => [String c EmptyString]
  end.

(** The pieces of a text between its CRLF pairs. A text that ends in CRLF
    has an empty last piece. *)
Fixpoint split_crlf (s : string) : list string :=
  match s with
  | EmptyString => [EmptyString]
  | String c rest =>
      match rest with
      | String d rest' =>
          if ((c =? CR) && (d =? LF))%char then EmptyString :: split_crlf rest'
          else push c (split_crlf rest)
      | EmptyString => push c (split_crlf rest)
      end
  end.

(** Each line followed by CRLF. *)
Definition unlines (ls : list string) : string :=
  fold_right (fun l acc => l ++ CRLF ++ acc) EmptyString ls.

(** The number of lines that begin with [tag]. *)
Definition count_lines (tag doc : string) : nat :=
  List.length (List.filter (String.prefix tag) (split_crlf doc)).

(** Some line begins with [tag]. *)
Definition has_line (tag doc : string) : Prop :=
  exists l, In l (split_crlf doc) /\ String.prefix tag l = true.

(** A well-formed line sequence: every line is closed by CRLF (the piece
    after the last CRLF is empty) and no line holds a stray CR or LF. *)
Definition line_sequence (doc : string) : bool :=
  match rev (split_crlf doc) with
  | last :: ls => (last =? EmptyString)%string && forallb single_line ls
  | [] => false
  end.

End Lines.
Import Lines.

(** ** The session skeleton, line by line *)

Section Skeleton.

Variable E : externals.

(** An optional text field is absent or passes the validator. *)
Definition field_ok (o : option string) : bool :=
  match o with
  | Some s => IsSDPString E s
  | None => true
  end.

(** What the properties of a session ask of the platform: the host name
    and the product string are single lines, the product string holds no
    [%] (it is pasted into the format), and [IsUTF8] accepts the three
    default texts. *)
Definition platform_ok : bool :=
  single_line (gethostname E) && single_line (PACKAGE_STRING E)
  && lacks "%" (PACKAGE_STRING E)
  && IsUTF8 E "Unnamed" && IsUTF8 E "N/A" && IsUTF8 E EmptyString.

(** The source address as [sdp_Start] formats it: only when [srclen] is
    positive. *)
Definition source_text (src : sockaddr) (srclen : N) : option string :=
  if (0 <? srclen)%N then AddressToSDP E src srclen else None.

Definition opt_line (tag : string) (o : option string) : list string :=
  match o with
  | Some v => [tag ++ v]
  | None => []
  end.

Definition origin_line (connection : string) : string :=
  "o=- " ++ dec_unsigned (NTPtime64 E mod 2 ^ 64)
  ++ " " ++ dec_unsigned (NTPtime64 E mod 2 ^ 64)
  ++ " IN IP" ++ String (char_at 5 connection) (" " ++ gethostname E).

Definition source_filter_line (machine : string) : string :=
  "a=source-filter: incl IN IP" ++ String (char_at 5 machine) (" * " ++ skip 7 machine).

(** The lines of a new session in the order of the specification's wire
    format, for the texts that reach the format: [name] and
    [description] after defaulting, the optional fields, the formatted
    session address and the formatted source address, if any. The code
    is compared with this list in [sdp_Start_text]. *)
Definition session_lines (name description : string) (url email phone : option string)
    (connection : string) (source : option string) : list string :=
  List.app ["v=0"; origin_line connection; "s=" ++ name; "i=" ++ description]
  (List.app (opt_line "u=" url)
  (List.app (opt_line "e=" email)
  (List.app (opt_line "p=" phone)
  (List.app ["c=" ++ connection; "t=0 0"; "a=tool:" ++ PACKAGE_STRING E;
             "a=recvonly"; "a=type:broadcast"; "a=charset:UTF-8"]
            (opt_line EmptyString (option_map source_filter_line source)))))).

End Skeleton.

(** The allocator grants the next request. *)
Definition grants (m : store) : bool :=
  match tape m with
  | InPlace :: _ | Moved :: _ => true
  | _ => false
  end.

(** The outcome of a media append is the block of the H264 scenario of the
    specification appended to [doc]. *)
Definition scenario_reached (doc : string) (o : outcome (option loc * loc)) : bool :=
  match o with
  | Ret (_, p) m =>
      match text_at m p with
      | Some s =>
          (s =? doc ++ "m=video 5004 RTP/AVP 96" ++ CRLF ++ "b=RR:0" ++ CRLF
                ++ "a=rtpmap:96 H264/90000" ++ CRLF)%string
      | None => false
      end
  | _ => false
  end.

(** ** Vocabulary of the further properties *)

(** The allocator says yes. *)
Definition granted (g : grant) : bool :=
  match g with
  | Refuse => false
  | _ => true
  end.

(** The store after a granted [realloc] of [p] that returned [r] and left
    the block [b] there, with [t] the rest of the tape. *)
Definition replace_block (p r : loc) (b : block) (t : list grant) (m : store) : store :=
  {| blocks := <[r := b]> (delete p (blocks m)); tape := t |}.

(** The store after a granted allocation of the new block [b] at [q]. *)
Definition add_block (q : loc) (b : block) (t : list grant) (m : store) : store :=
  {| blocks := <[q := b]> (blocks m); tape := t |}.

(** [vsnprintf (NULL, 0, fmt, ap)] is defined: the caller's arguments
    match the format. With no format nothing is measured. *)
Definition measurable (fmt : option string) (args : list arg) : bool :=
  match fmt with
  | Some f => match format f args with Some _ => true | None => false end
  | None => true
  end.

(** The attribute part of [sdp_AddMedia], after the [m=] and [b=] lines
    have been written to the block at [r]. *)
Definition media_tail (r : loc) (pt : N) (rtpmap fmtp : option string)
  : M (option loc * loc) :=
  r1 <- match rtpmap with
        | Some rtpmap =>
            sdp_AddAttribute r "rtpmap" (Some "%u %s") [AUInt pt; AStr rtpmap]
        | None => ret (None, r)
        end ;;
  r2 <- match fmtp with
        | Some fmtp =>
            sdp_AddAttribute (snd r1) "fmtp" (Some "%u %s") [AUInt pt; AStr fmtp]
        | None => ret (None, snd r1)
        end ;;
  ret (Some r, snd r2).

(** The size of the local array [sfilter] of [sdp_Start]. *)
Definition sfilter_size : nat :=
  MAXSDPADDRESS + sizeof_lit (CRLF ++ "a=source-filter: incl * ").

(** The platform's bound on a numeric IPv4 text, terminator included
    ([<netinet/in.h>]). *)
Definition INET_ADDRSTRLEN : nat := 16.

(** All five text fields are absent or pass the validator. *)
Definition fields_ok (E : externals) (name description url email phone : option string)
  : bool :=
  field_ok E name && field_ok E description && field_ok E url
  && field_ok E email && field_ok E phone.

(** The [m=] and [b=] lines of a media block, for a port and a payload
    type that print as themselves. *)
Definition media_block (type protocol : option string) (dport : Z) (pt : N) : string :=
  "m=" ++ default "video" type ++ " " ++ dec_unsigned (Z.to_N dport) ++ " "
  ++ default "RTP/AVP" protocol ++ " " ++ dec_unsigned pt ++ CRLF ++ "b=RR:0" ++ CRLF.

(** ** A concrete platform, for evaluating the model *)

Module Sample.

Definition byte_in (lo hi : N) (c : ascii) : bool :=
  let n := N_of_ascii c in ((lo <=? n) && (n <=? hi))%N.

(** Modelled from the spec: [IsUTF8] is declared in [vlc_charset.h] and
    defined outside [sdp.c]; the specification asks for valid text
    encoding with no malformed multi-byte sequence. This is the
    well-formedness table of RFC 3629. *)
Fixpoint utf8_wellformed (s : string) : bool :=
  match s with
  | EmptyString => true
  | String c r =>
    if byte_in 0 127 c then utf8_wellformed r
    else
      match r with
      | String c1 r1 =>
        if byte_in 194 223 c then byte_in 128 191 c1 && utf8_wellformed r1
        else
          match r1 with
          | String c2 r2 =>
            if byte_in 224 239 c then
              (if byte_in 224 224 c then byte_in 160 191 c1
               else if byte_in 237 237 c then byte_in 128 159 c1
               else byte_in 128 191 c1)
              && byte_in 128 191 c2 && utf8_wellformed r2
            else
              match r2 with
              | String c3 r3 =>
                if byte_in 240 244 c then
                  (if byte_in 240 240 c then byte_in 144 191 c1
                   else if byte_in 244 244 c then byte_in 128 143 c1
                   else byte_in 128 191 c1)
                  && byte_in 128 191 c2 && byte_in 128 191 c3 && utf8_wellformed r3
                else false
              | EmptyString => false
              end
          | EmptyString => false
          end
      | EmptyString => false
      end
  end.

Definition join_with (sep : string) (parts : list string) : string :=
  String.concat sep parts.

Definition hex_digit (n : N) : ascii :=
  if (n <? 10)%N then ascii_of_N (48 + n) else ascii_of_N (87 + n).

(** One 16-bit group in hexadecimal, without leading zeros. *)
Definition hex_group (hi lo : N) : string :=
  let v := (hi * 256 + lo)%N in
  let d3 := String (hex_digit (v mod 16)) EmptyString in
  let d2 := String (hex_digit (v / 16 mod 16)) d3 in
  let d1 := String (hex_digit (v / 256 mod 16)) d2 in
  if (v <? 16)%N then d3
  else if (v <? 256)%N then d2
  else if (v <? 4096)%N then d1
  else String (hex_digit (v / 4096)) d1.

Fixpoint hex_groups (bytes : list N) : list string :=
  match bytes with
  | hi :: lo :: rest => hex_group hi lo :: hex_groups rest
  | _ => []
  end.

Definition EAI_FAMILY : Z := -6.
Definition EAI_OVERFLOW : Z := -12.

Definition bounded (hostlen : nat) (h : string) : Z * string :=
  if (String.length h <? hostlen)%nat then (0%Z, h) else (EAI_OVERFLOW, EmptyString).

(** Modelled from the spec: [vlc_getnameinfo] lives outside [sdp.c]; with
    [NI_NUMERICHOST] it converts a binary address to its numeric text.
    An IPv4 address (bytes 2..5 of the data, after the port) is printed
    dotted; an IPv6 address (bytes 6..21) as eight hexadecimal groups,
    followed by [%] and the scope id (byte 25) when that is not zero;
    zero runs are not compressed. *)
Definition numeric_host (a : sockaddr) (len : N) (hostlen : nat) (flags : Z)
  : Z * string :=
  if (sa_family a =? AF_INET)%N then
    match sa_data a with
    | _ :: _ :: b0 :: b1 :: b2 :: b3 :: _ =>
        bounded hostlen (join_with "." (map dec_unsigned [b0; b1; b2; b3]))
    | _ => (EAI_FAMILY, EmptyString)
    end
  else if (sa_family a =? AF_INET6)%N then
    let addr := firstn 16 (skipn 6 (sa_data a)) in
    let scope := nth 25 (sa_data a) 0%N in
    if (List.length addr =? 16)%nat then
      bounded hostlen
        (join_with ":" (hex_groups addr)
         ++ (if (scope =? 0)%N then EmptyString else "%" ++ dec_unsigned scope))
    else (EAI_FAMILY, EmptyString)
  else (EAI_FAMILY, EmptyString).

(** Modelled from the spec: [net_SockAddrIsMulticast] is an inline helper
    of [vlc_network.h]; an IPv4 address is multicast when its first byte
    is 224..239, an IPv6 address when its first byte is 255. *)
Definition is_multicast (a : sockaddr) (len : N) : bool :=
  if (sa_family a =? AF_INET)%N then
    match nth_error (sa_data a) 2 with
    | Some b => ((224 <=? b) && (b <=? 239))%N
    | None => false
    end
  else if (sa_family a =? AF_INET6)%N then
    match nth_error (sa_data a) 6 with
    | Some b => (b =? 255)%N
    | None => false
    end
  else false.

Definition platform : externals :=
  {| IsUTF8 := utf8_wellformed;
     vlc_getnameinfo := numeric_host;
     net_SockAddrIsMulticast := is_multicast;
     gethostname := "studio";
     NTPtime64 := 14934824953495134208;
     PACKAGE_STRING := "vlc 0.9.0-svn" |}.

(** [sockaddr_in] for [a.b.c.d:port]. *)
Definition inet (a b c d port : N) : sockaddr :=
  {| sa_family := AF_INET;
     sa_data := [port / 256; port mod 256; a; b; c; d; 0; 0; 0; 0; 0; 0; 0; 0]%N |}.

(** [sockaddr_in6] for the sixteen address bytes, a port and a scope id. *)
Definition inet6 (addr : list N) (port scope : N) : sockaddr :=
  {| sa_family := AF_INET6;
     sa_data :=
       List.app [port / 256; port mod 256; 0; 0; 0; 0]%N
                (List.app addr [0; 0; 0; scope]%N) |}.

Definition sockaddr_in_size : N := 16.
Definition sockaddr_in6_size : N := 28.

(** An address of a family the formatter does not know ([AF_UNIX]). *)
Definition unix_addr : sockaddr := {| sa_family := 1; sa_data := [47; 0]%N |}.

(** A store with no block; [t] is the allocator's tape. *)
Definition empty_store (t : list grant) : store := {| blocks := ∅; tape := t |}.

(** A store holding one document, in a block of exactly its size, at
    address 1. *)
Definition one_doc (doc : string) (t : list grant) : store :=
  {| blocks := {[ 1%positive := Block (S (String.length doc)) doc ]}; tape := t |}.

(** A session announced for [239.1.1.1:5004] with no source address,
    followed by one attribute with a value. *)
Definition start_demo : M (option loc) :=
  sdp_Start platform (Some "Test Stream") (Some "demo") None None None
    unix_addr 0 (inet 239 1 1 1 5004) sockaddr_in_size.

Definition start_then_attribute : M (option loc * loc) :=
  p <- start_demo ;;
  match p with
  | Some p => sdp_AddAttribute p "control" (Some "trackID") []
  | None => ret (None, 1%positive)
  end.

(** The shortest document used in the examples. *)
Definition stub : string := "v=0" ++ CRLF.

(** [sockaddr_in6] for [fe80::1%2], port 5004. *)
Definition link_local : sockaddr :=
  inet6 [254; 128; 0; 0; 0; 0; 0; 0; 0; 0; 0; 0; 0; 0; 0; 1]%N 5004 2.

End Sample.

(** * Properties *)

(** ** Strings *)

Section StringFacts.

Lemma append_assoc (a b c : string) : (a ++ b) ++ c = a ++ (b ++ c).
Proof. induction a as [|x a IH]; simpl; [reflexivity | now rewrite IH]. Qed.

Lemma append_empty_r (a : string) : a ++ EmptyString = a.
Proof. induction a as [|x a IH]; simpl; [reflexivity | now rewrite IH]. Qed.

Lemma length_append (a b : string) :
  String.length (a ++ b) = String.length a + String.length b.
Proof. induction a as [|x a IH]; simpl; [reflexivity | now rewrite IH]. Qed.

Lemma keep_all (n : nat) (a : string) : String.length a <= n -> keep n a = a.
Proof.
  revert n. induction a as [|x a IH]; intros [|n] H; simpl in *; try reflexivity; try lia.
  rewrite IH by lia. reflexivity.
Qed.

Lemma write_at_end (a t : string) : write_at (String.length a) t a = a ++ t.
Proof. unfold write_at. now rewrite keep_all. Qed.

Lemma lacks_occurs (c : ascii) (s : string) : lacks c s = true <-> ~ occurs c s.
Proof.
  induction s as [|d s IH]; simpl.
  - tauto.
  - rewrite andb_true_iff, negb_true_iff, IH, Ascii.eqb_neq. tauto.
Qed.

Lemma strchr_lacks (c : ascii) (s : string) : strchr s c = None <-> lacks c s = true.
Proof.
  induction s as [|d s IH]; simpl.
  - tauto.
  - destruct (d =? c)%char; simpl; [split; discriminate | exact IH].
Qed.

Lemma lacks_append (c : ascii) (a b : string) :
  lacks c (a ++ b) = lacks c a && lacks c b.
Proof.
  induction a as [|x a IH]; simpl; [reflexivity | ].
  rewrite IH. now rewrite andb_assoc.
Qed.

Lemma lacks_skip (c : ascii) (n : nat) (s : string) :
  lacks c s = true -> lacks c (skip n s) = true.
Proof.
  revert s. induction n as [|n IH]; intros [|d s]; simpl; auto.
  intros H. apply andb_prop in H as [_ H]. auto.
Qed.

Lemma lacks_char_at (c : ascii) (n : nat) (s : string) :
  lacks c s = true -> c <> zero -> (char_at n s =? c)%char = false.
Proof.
  revert n. induction s as [|d s IH]; intros n H Hz; cbn [char_at].
  - apply Ascii.eqb_neq. intros Heq. apply Hz. now symmetry.
  - simpl in H. apply andb_prop in H as [Hd Hs]. destruct n as [|n].
    + now apply negb_true_iff.
    + now apply IH.
Qed.

Lemma keep_skip (n : nat) (s : string) : keep n s ++ skip n s = s.
Proof.
  revert s. induction n as [|n IH]; intros [|c s]; simpl; try reflexivity.
  now rewrite IH.
Qed.

Lemma has_suffix_ends_with (suf s : string) :
  has_suffix suf s = true -> ends_with suf s.
Proof.
  unfold has_suffix, ends_with. intros H. apply andb_prop in H as [H _].
  apply String.eqb_eq in H.
  exists (keep (String.length s - String.length suf) s).
  rewrite <- H at 2. symmetry. apply keep_skip.
Qed.

End StringFacts.

(** ** Formatting *)

Section FormatFacts.

Lemma format_literal_app (l f : string) (args : list arg) :
  lacks "%" l = true -> format (l ++ f) args = emits l (format f args).
Proof.
  induction l as [|c l IH]; simpl; intros H.
  - destruct (format f args); reflexivity.
  - apply andb_prop in H as [Hc Hl]. apply negb_true_iff in Hc. rewrite Hc.
    rewrite (IH Hl). destruct (format f args); reflexivity.
Qed.

(** A format without [%] is copied as it is, whatever the arguments. *)
Lemma format_literal (l : string) (args : list arg) :
  lacks "%" l = true -> format l args = Some l.
Proof.
  intros H. rewrite <- (append_empty_r l) at 1.
  rewrite format_literal_app by assumption. simpl. now rewrite append_empty_r.
Qed.

Lemma string_of_uint_lacks (c : ascii) (d : Decimal.uint) :
  c = CR \/ c = LF -> lacks c (NilEmpty.string_of_uint d) = true.
Proof.
  intros Hc. induction d; simpl; try rewrite IHd; destruct Hc as [-> | ->]; reflexivity.
Qed.

Lemma dec_unsigned_lacks (c : ascii) (n : N) :
  c = CR \/ c = LF -> lacks c (dec_unsigned n) = true.
Proof.
  intros Hc. unfold dec_unsigned, NilZero.string_of_uint.
  destruct (N.to_uint n) eqn:Hn; try (rewrite <- Hn); try apply string_of_uint_lacks; auto.
  destruct Hc as [-> | ->]; reflexivity.
Qed.

End FormatFacts.

(** ** Lines *)

Section LineFacts.

Lemma split_crlf_cons (c : ascii) (s : string) :
  (c =? CR)%char = false -> split_crlf (String c s) = push c (split_crlf s).
Proof. intros H. destruct s; cbn [split_crlf]; rewrite ?H; reflexivity. Qed.

(** A line without CR, closed by CRLF, is the first piece. *)
Lemma split_crlf_line (a r : string) :
  lacks CR a = true -> split_crlf (a ++ CRLF ++ r) = a :: split_crlf r.
Proof.
  induction a as [|c a IH]; intros H.
  - reflexivity.
  - simpl in H. apply andb_prop in H as [Hc Ha]. apply negb_true_iff in Hc.
    cbn [String.append]. rewrite split_crlf_cons by assumption.
    rewrite (IH Ha). reflexivity.
Qed.

Lemma split_crlf_unlines (ls : list string) :
  forallb (lacks CR) ls = true -> split_crlf (unlines ls) = List.app ls [EmptyString].
Proof.
  induction ls as [|l ls IH]; intros H.
  - reflexivity.
  - simpl in H. apply andb_prop in H as [Hl Hls].
    change (unlines (l :: ls)) with (l ++ CRLF ++ unlines ls).
    rewrite split_crlf_line by assumption.
    now rewrite IH.
Qed.

Lemma count_lines_unlines (tag : string) (ls : list string) :
  forallb (lacks CR) ls = true ->
  count_lines tag (unlines ls)
  = List.length (List.filter (String.prefix tag) ls)
    + (if String.prefix tag EmptyString then 1 else 0).
Proof.
  intros H. unfold count_lines. rewrite split_crlf_unlines by assumption.
  rewrite List.filter_app, List.length_app. simpl.
  destruct tag; reflexivity.
Qed.

Lemma has_line_count (tag doc : string) :
  has_line tag doc <-> 0 < count_lines tag doc.
Proof.
  unfold has_line, count_lines. split.
  - intros (l & Hin & Hp).
    assert (Hf : In l (List.filter (String.prefix tag) (split_crlf doc)))
      by (apply List.filter_In; auto).
    destruct (List.filter _ _); [destruct Hf | simpl; lia].
  - destruct (List.filter _ _) as [|l ls] eqn:Hf; simpl; [lia | ].
    intros _. exists l. apply List.filter_In. rewrite Hf. now left.
Qed.

Lemma prefix_empty (s : string) : String.prefix EmptyString s = true.
Proof. destruct s; reflexivity. Qed.

Lemma unlines_app (a b : list string) :
  unlines (List.app a b) = unlines a ++ unlines b.
Proof.
  induction a as [|l a IH]; [reflexivity | ].
  change (unlines (List.app (l :: a) b)) with (l ++ CRLF ++ unlines (List.app a b)).
  change (unlines (l :: a)) with (l ++ CRLF ++ unlines a).
  rewrite IH, !append_assoc. reflexivity.
Qed.

Lemma ends_with_append (suf a b : string) :
  ends_with suf b -> ends_with suf (a ++ b).
Proof. intros [pre ->]. exists (a ++ pre). now rewrite append_assoc. Qed.

Lemma unlines_last (ls : list string) (l : string) :
  ends_with (l ++ CRLF) (unlines (List.app ls [l])).
Proof.
  rewrite unlines_app. apply ends_with_append. exists EmptyString.
  unfold unlines, fold_right. now rewrite append_empty_r.
Qed.

Lemma unlines_last_two (ls : list string) (k l : string) :
  ends_with (CRLF ++ l ++ CRLF) (unlines (List.app ls [k; l])).
Proof.
  rewrite unlines_app. apply ends_with_append. exists k.
  unfold unlines, fold_right. now rewrite append_empty_r.
Qed.

Lemma forallb_rev {A : Type} (f : A -> bool) (l : list A) :
  forallb f (rev l) = forallb f l.
Proof.
  induction l as [|x l IH]; [reflexivity | ].
  simpl. rewrite forallb_app, IH. simpl. rewrite andb_true_r. apply andb_comm.
Qed.

(** Single lines, each closed by CRLF, make a well-formed sequence. *)
Lemma line_sequence_unlines (ls : list string) :
  forallb single_line ls = true -> line_sequence (unlines ls) = true.
Proof.
  intros H. unfold line_sequence.
  assert (Hcr : forallb (lacks CR) ls = true).
  { rewrite forallb_forall in *. intros l Hl. specialize (H l Hl).
    unfold single_line in H. now apply andb_prop in H as [H _]. }
  rewrite split_crlf_unlines by assumption.
  rewrite rev_app_distr. simpl. now rewrite forallb_rev.
Qed.

End LineFacts.

(** ** The store *)

Section StoreFacts.

(** A granted [realloc] to a size that holds the text keeps the text; the
    block is either where it was or the old address is dead. *)
Lemma realloc_granted (p : loc) (n : nat) (m : store) (doc : string) :
  text_at m p = Some doc -> grants m = true -> String.length doc < n ->
  exists r m1,
    realloc p n m = Ret (Some r) m1
    /\ blocks m1 !! r = Some (Block n doc)
    /\ (r = p \/ blocks m1 !! p = None).
Proof.
  unfold text_at, grants, realloc, next_grant. intros Hdoc Hg Hn.
  destruct (blocks m !! p) as [b|] eqn:Hb; [ | discriminate].
  destruct (String.length (text b) <? cap b)%nat; [ | discriminate].
  injection Hdoc as <-.
  assert (Hres : resize n b = Block n (text b)).
  { unfold resize. f_equal. apply keep_all. lia. }
  destruct (tape m) as [|[] t]; try discriminate; cbn [blocks tape]; rewrite Hres.
  - eexists _, _. split; [reflexivity | ]. cbn [blocks].
    rewrite lookup_insert_eq. auto.
  - eexists _, _. split; [reflexivity | ]. cbn [blocks].
    rewrite lookup_insert_eq. split; [reflexivity | ]. right.
    rewrite lookup_insert_ne.
    + apply lookup_delete_eq.
    + intros Heq. pose proof (is_fresh (dom (blocks m))) as Hfresh.
      rewrite Heq in Hfresh. apply Hfresh. apply elem_of_dom. eauto.
Qed.

(** [sprintf] at the end of the text appends, when the block has room. *)
Lemma sprintf_append (p : loc) (fmt : string) (args : list arg) (m : store)
    (c : nat) (txt s : string) :
  blocks m !! p = Some (Block c txt) ->
  format fmt args = Some s ->
  String.length txt + String.length s < c ->
  sprintf p (String.length txt) fmt args m
  = Ret (String.length s)
      {| blocks := <[p := Block c (txt ++ s)]> (blocks m); tape := tape m |}.
Proof.
  intros Hb Hf Hfit. unfold sprintf. rewrite Hf, Hb. cbn [cap text].
  rewrite (proj2 (Nat.ltb_lt _ _) Hfit), write_at_end. reflexivity.
Qed.

Lemma alloc_text_grants (s : string) (m : store) :
  grants m = true ->
  exists p m', alloc_text s m = Ret (Some p) m' /\ text_at m' p = Some s.
Proof.
  unfold grants, alloc_text, next_grant. intros Hg.
  destruct (tape m) as [|[] t]; try discriminate; cbn [blocks tape];
    eexists _, _; (split; [reflexivity | ]);
    unfold text_at; cbn [blocks]; rewrite lookup_insert_eq; cbn [cap text];
    rewrite (proj2 (Nat.ltb_lt _ _)) by lia; reflexivity.
Qed.

(** An assertion whose condition holds passes in every build. *)
Lemma assert_passes (NDEBUG : bool) (m : store) :
  assert NDEBUG true m = Ret tt m.
Proof. destruct NDEBUG; reflexivity. Qed.

End StoreFacts.

(** ** The string validator *)

Section Validator.

Variable E : externals.

(** The three tests of [IsSDPString], in order. *)
Lemma IsSDPString_tests (s : string) :
  IsSDPString E s = lacks CR s && lacks LF s && IsUTF8 E s.
Proof.
  unfold IsSDPString.
  destruct (strchr s CR) as [t|] eqn:Hcr.
  - destruct (lacks CR s) eqn:Hl; [ | reflexivity].
    apply strchr_lacks in Hl. congruence.
  - apply strchr_lacks in Hcr. rewrite Hcr.
    destruct (strchr s LF) as [t|] eqn:Hlf.
    + destruct (lacks LF s) eqn:Hl; [ | reflexivity].
      apply strchr_lacks in Hl. congruence.
    + apply strchr_lacks in Hlf. rewrite Hlf. now destruct (IsUTF8 E s).
Qed.

(** C4. The validator accepts a text exactly when the text holds no
    carriage return, holds no line feed, and is accepted by [IsUTF8]. So
    every line-safe text is accepted, and a text with a CR, with an LF or
    with an encoding [IsUTF8] refuses is rejected. *)
Theorem IsSDPString_line_safe (s : string) :
  IsSDPString E s = true
  <-> ~ occurs CR s /\ ~ occurs LF s /\ IsUTF8 E s = true.
Proof.
  rewrite IsSDPString_tests, !andb_true_iff, !lacks_occurs. tauto.
Qed.

Lemma IsSDPString_single_line (s : string) :
  IsSDPString E s = true -> single_line s = true.
Proof.
  rewrite IsSDPString_tests, !andb_true_iff. unfold single_line.
  intros [[H1 H2] _]. now rewrite H1, H2.
Qed.

Lemma IsSDPString_literal (s : string) :
  single_line s = true -> IsUTF8 E s = true -> IsSDPString E s = true.
Proof.
  intros Hs Hu. rewrite IsSDPString_tests. unfold single_line in Hs.
  now rewrite Hs, Hu.
Qed.

End Validator.

Example IsSDPString_accepts_plain :
  IsSDPString Sample.platform "Test Stream" = true.
Proof. reflexivity. Qed.

Example IsSDPString_accepts_two_byte_sequence :
  IsSDPString Sample.platform
    (String "195" (String "169" "t" ++ String "195" (String "169" EmptyString)))
  = true.
Proof. reflexivity. Qed.

Example IsSDPString_rejects_line_break :
  IsSDPString Sample.platform ("Evil" ++ CRLF ++ "a=x") = false
  /\ IsSDPString Sample.platform (String "a" (String LF "b")) = false.
Proof. split; reflexivity. Qed.

Example IsSDPString_rejects_malformed_sequence :
  IsSDPString Sample.platform (String "195" "x") = false
  /\ IsSDPString Sample.platform (String "255" EmptyString) = false
  /\ IsSDPString Sample.platform (String "192" (String "128" EmptyString)) = false.
Proof. repeat split; reflexivity. Qed.

(** ** The address formatter *)

Section AddressFormatter.

Variable E : externals.

(** A formatted address is [IN IP], the version digit, a space and the
    host text. *)
Lemma AddressToSDP_shape (addr : sockaddr) (len : N) (out : string) :
  AddressToSDP E addr len = Some out ->
  exists v host, out = "IN IP" ++ String v (String " " host)
                 /\ (v = "4"%char \/ v = "6"%char).
Proof.
  unfold AddressToSDP.
  destruct (len <? _)%N; [discriminate | ].
  destruct (vlc_getnameinfo E addr len _ _) as [[|rc|rc] host]; try discriminate.
  destruct (sa_family addr =? AF_INET)%N.
  - intros [= <-]. destruct (net_SockAddrIsMulticast E addr len); simpl; eauto.
  - destruct (sa_family addr =? AF_INET6)%N; [ | discriminate].
    intros [= <-]. simpl. destruct (strchr host "%"); simpl; eauto.
Qed.

(** C5. For an IPv4 socket address that is long enough to hold its
    family tag and that the numeric-host conversion accepts, the
    formatter succeeds and its text starts with [IN IP4 ]; when the
    address is multicast the text moreover ends with [/255]. *)
Theorem AddressToSDP_ipv4 (addr : sockaddr) (addrlen : N) :
  sa_family addr = AF_INET ->
  (sa_family_offset + sa_family_size <= addrlen)%N ->
  fst (vlc_getnameinfo E addr addrlen (MAXSDPADDRESS - 7) NI_NUMERICHOST) = 0%Z ->
  exists out,
    AddressToSDP E addr addrlen = Some out
    /\ starts_with "IN IP4 " out
    /\ (net_SockAddrIsMulticast E addr addrlen = true -> ends_with "/255" out).
Proof.
  intros Hfam Hlen Hrc. unfold AddressToSDP.
  apply N.ltb_ge in Hlen. rewrite Hlen.
  destruct (vlc_getnameinfo E addr addrlen _ _) as [rc host]. simpl in Hrc. subst rc.
  rewrite Hfam, N.eqb_refl.
  destruct (net_SockAddrIsMulticast E addr addrlen).
  - eexists. split; [reflexivity | ]. split.
    + exists (host ++ "/255"). reflexivity.
    + intros _. exists ("IN IP4 " ++ host). reflexivity.
  - eexists. split; [reflexivity | ]. split.
    + exists host. reflexivity.
    + discriminate.
Qed.

End AddressFormatter.

Lemma AddressToSDP_ipv4_witness :
  exists out,
    AddressToSDP Sample.platform (Sample.inet 239 1 1 1 5004) Sample.sockaddr_in_size
      = Some out
    /\ starts_with "IN IP4 " out
    /\ (net_SockAddrIsMulticast Sample.platform (Sample.inet 239 1 1 1 5004)
          Sample.sockaddr_in_size = true -> ends_with "/255" out).
Proof.
  apply (AddressToSDP_ipv4 Sample.platform (Sample.inet 239 1 1 1 5004)
           Sample.sockaddr_in_size).
  - reflexivity.
  - vm_compute. discriminate.
  - reflexivity.
Defined.

Example AddressToSDP_multicast :
  AddressToSDP Sample.platform (Sample.inet 239 1 1 1 5004) Sample.sockaddr_in_size
  = Some "IN IP4 239.1.1.1/255".
Proof. reflexivity. Qed.

Example AddressToSDP_scope_id_removed :
  AddressToSDP Sample.platform
    (Sample.inet6 [254; 128; 0; 0; 0; 0; 0; 0; 0; 0; 0; 0; 0; 0; 0; 1]%N 5004 2)
    Sample.sockaddr_in6_size
  = Some "IN IP6 fe80:0:0:0:0:0:0:1".
Proof. reflexivity. Qed.

Example AddressToSDP_unknown_family :
  AddressToSDP Sample.platform Sample.unix_addr 2 = None.
Proof. reflexivity. Qed.

(** ** Session initialization *)

Section Session.

Variable E : externals.

(** C7. When one of the supplied text fields is not line-safe, session
    initialization returns NULL and leaves the store as it found it: no
    block is allocated and no allocator decision is consumed. *)
Theorem sdp_Start_rejects_unsafe_field
    (name description url email phone : option string)
    (src : sockaddr) (srclen : N) (addr : sockaddr) (addrlen : N)
    (m : store) (s : string) :
  In (Some s) [name; description; url; email; phone] ->
  IsSDPString E s = false ->
  sdp_Start E name description url email phone src srclen addr addrlen m
  = Ret None m.
Proof.
  intros Hin Hbad. unfold sdp_Start.
  assert (Hor : forall a b c d e : bool,
             a = false \/ b = false \/ c = false \/ d = false \/ e = false ->
             negb a || negb b || negb c || negb d || negb e = true).
  { intros [] [] [] [] []; simpl; intuition congruence. }
  rewrite Hor; [reflexivity | ].
  simpl in Hin.
  destruct Hin as [-> | [-> | [-> | [-> | [-> | []]]]]]; simpl; auto 6.
Qed.

(** An unformattable session address is refused in the same way. *)
Lemma sdp_Start_rejects_bad_address
    (name description url email phone : option string)
    (src : sockaddr) (srclen : N) (addr : sockaddr) (addrlen : N) (m : store) :
  AddressToSDP E addr addrlen = None ->
  sdp_Start E name description url email phone src srclen addr addrlen m
  = Ret None m.
Proof.
  intros Haddr. unfold sdp_Start. rewrite Haddr.
  now destruct (negb _ || negb _ || negb _ || negb _ || negb _).
Qed.

(** *** The text of a new session *)

Lemma format_session (name description : string) (url email phone : option string)
    (conn : string) (source : option string) :
  lacks "%" (PACKAGE_STRING E) = true ->
  format (sdp_Start_fmt E)
    [ AULongLong (NTPtime64 E); AULongLong (NTPtime64 E);
      AChar (char_at 5 conn); AStr (gethostname E);
      AStr name;
      AStr description;
      AStr (match url with Some _ => CRLF ++ "u=" | None => EmptyString end);
      AStr (default EmptyString url);
      AStr (match email with Some _ => CRLF ++ "e=" | None => EmptyString end);
      AStr (default EmptyString email);
      AStr (match phone with Some _ => CRLF ++ "p=" | None => EmptyString end);
      AStr (default EmptyString phone);
      AStr conn;
      AStr (match source with
            | Some machine => CRLF ++ source_filter_line machine
            | None => EmptyString
            end) ]
  = Some (unlines (session_lines E name description url email phone conn source)).
Proof.
  intros Hpkg. unfold sdp_Start_fmt, I64Fu. cbn.
  rewrite format_literal_app by assumption. cbn.
  f_equal. unfold session_lines, origin_line, unlines.
  destruct url, email, phone, source; cbn;
    repeat (rewrite append_assoc; cbn [String.append]);
    rewrite ?append_empty_r; reflexivity.
Qed.

Lemma format_source_filter (machine : string) :
  format source_filter_fmt [AChar (char_at 5 machine); AStr (skip 7 machine)]
  = Some (CRLF ++ source_filter_line machine).
Proof. cbn. rewrite append_empty_r. reflexivity. Qed.

Lemma platform_ok_inv :
  platform_ok E = true ->
  single_line (gethostname E) = true /\ single_line (PACKAGE_STRING E) = true
  /\ lacks "%" (PACKAGE_STRING E) = true
  /\ IsUTF8 E "Unnamed" = true /\ IsUTF8 E "N/A" = true
  /\ IsUTF8 E EmptyString = true.
Proof. unfold platform_ok. rewrite !andb_true_iff. tauto. Qed.

Lemma field_default (o : option string) (d : string) :
  field_ok E o = true -> IsSDPString E d = true ->
  IsSDPString E (default d o) = true.
Proof. destruct o; simpl; auto. Qed.

(** With a sound platform, valid fields, a session address that formats
    and an allocator that grants the block, [sdp_Start] returns a new
    block whose text is the lines of [session_lines], each closed by
    CRLF. *)
Lemma sdp_Start_text (name description url email phone : option string)
    (src : sockaddr) (srclen : N) (addr : sockaddr) (addrlen : N)
    (conn : string) (m : store) :
  platform_ok E = true ->
  field_ok E name = true -> field_ok E description = true ->
  field_ok E url = true -> field_ok E email = true -> field_ok E phone = true ->
  AddressToSDP E addr addrlen = Some conn ->
  grants m = true ->
  exists p m',
    sdp_Start E name description url email phone src srclen addr addrlen m
      = Ret (Some p) m'
    /\ text_at m' p
       = Some (unlines (session_lines E (default "Unnamed" name) (default "N/A" description)
                          url email phone conn (source_text E src srclen))).
Proof.
  intros Hplat Hname Hdesc Hurl Hemail Hphone Haddr Hgrant.
  apply platform_ok_inv in Hplat as (Hhost & Hpkg & Hpct & Hu1 & Hu2 & Hu3).
  unfold sdp_Start.
  rewrite (field_default name "Unnamed"), (field_default description "N/A"),
    (field_default url EmptyString), (field_default email EmptyString),
    (field_default phone EmptyString);
    try assumption; try (apply IsSDPString_literal; [reflexivity | assumption]).
  cbn [negb orb]. rewrite Haddr. unfold bind.
  destruct (alloc_text_grants
              (unlines (session_lines E (default "Unnamed" name) (default "N/A" description)
                          url email phone conn (source_text E src srclen))) m Hgrant)
    as (p & m' & Halloc & Htext).
  exists p, m'. split; [ | exact Htext]. rewrite <- Halloc.
  unfold source_text.
  destruct (0 <? srclen)%N; [destruct (AddressToSDP E src srclen) as [machine|] | ];
    unfold sprintf_local, ret, asprintf.
  - rewrite format_source_filter.
    rewrite (format_session _ _ url email phone conn (Some machine)) by assumption.
    reflexivity.
  - rewrite (format_session _ _ url email phone conn None) by assumption.
    reflexivity.
  - rewrite (format_session _ _ url email phone conn None) by assumption.
    reflexivity.
Qed.

(** *** The lines of a new session are single lines *)

Lemma session_lines_lack (c : ascii) (name desc : string)
    (url email phone : option string) (conn : string) (source : option string) :
  c = CR \/ c = LF ->
  lacks c (gethostname E) = true -> lacks c (PACKAGE_STRING E) = true ->
  lacks c name = true -> lacks c desc = true ->
  lacks c (default EmptyString url) = true ->
  lacks c (default EmptyString email) = true ->
  lacks c (default EmptyString phone) = true ->
  lacks c conn = true -> lacks c (default EmptyString source) = true ->
  forallb (lacks c) (session_lines E name desc url email phone conn source) = true.
Proof.
  intros Hc Hhost Hpkg Hname Hdesc Hurl Hemail Hphone Hconn Hsrc.
  assert (Hz : c <> zero) by (destruct Hc as [-> | ->]; discriminate).
  pose proof (lacks_char_at c 5 conn Hconn Hz) as Hc5.
  pose proof (dec_unsigned_lacks c (NTPtime64 E mod 2 ^ 64) Hc) as Hnow.
  assert (Hsf : forall machine, lacks c machine = true ->
                  lacks c (source_filter_line machine) = true).
  { intros machine Hm. unfold source_filter_line.
    pose proof (lacks_char_at c 5 machine Hm Hz) as Hm5.
    pose proof (lacks_skip c 7 machine Hm) as Hm7.
    rewrite lacks_append. cbn [lacks]. rewrite lacks_append, Hm5, Hm7.
    destruct Hc as [-> | ->]; reflexivity. }
  unfold session_lines, origin_line, opt_line.
  rewrite !forallb_app.
  destruct url, email, phone, source; cbn [forallb option_map default from_option id] in *;
    rewrite ?lacks_append; cbn [lacks];
    rewrite ?lacks_append; cbn [lacks];
    rewrite ?Hsf by assumption;
    rewrite ?Hhost, ?Hpkg, ?Hname, ?Hdesc, ?Hurl, ?Hemail, ?Hphone, ?Hconn, ?Hc5, ?Hnow;
    destruct Hc as [-> | ->]; reflexivity.
Qed.

Lemma field_ok_lacks (c : ascii) (o : option string) (d : string) :
  c = CR \/ c = LF -> field_ok E o = true -> lacks c d = true ->
  lacks c (default d o) = true.
Proof.
  intros Hc Ho Hd. destruct o as [s|]; simpl; [ | exact Hd].
  apply IsSDPString_single_line in Ho. unfold single_line in Ho.
  apply andb_prop in Ho as [H1 H2]. destruct Hc as [-> | ->]; assumption.
Qed.

Lemma sdp_Start_lines_lack (c : ascii)
    (name description url email phone : option string)
    (src : sockaddr) (srclen : N) (conn : string) :
  c = CR \/ c = LF ->
  platform_ok E = true ->
  field_ok E name = true -> field_ok E description = true ->
  field_ok E url = true -> field_ok E email = true -> field_ok E phone = true ->
  single_line conn = true ->
  single_line (default EmptyString (source_text E src srclen)) = true ->
  forallb (lacks c)
    (session_lines E (default "Unnamed" name) (default "N/A" description)
       url email phone conn (source_text E src srclen)) = true.
Proof.
  intros Hc Hplat Hname Hdesc Hurl Hemail Hphone Hconn Hsrc.
  apply platform_ok_inv in Hplat as (Hhost & Hpkg & Hpct & Hu1 & Hu2 & Hu3).
  assert (Hpick : forall s, single_line s = true -> lacks c s = true).
  { intros s Hs. unfold single_line in Hs. apply andb_prop in Hs as [Hs1 Hs2].
    destruct Hc as [-> | ->]; assumption. }
  apply session_lines_lack; auto;
    apply field_ok_lacks; auto; destruct Hc as [-> | ->]; reflexivity.
Qed.

(** A new session is a well-formed sequence of lines. *)
Lemma sdp_Start_line_sequence (name description url email phone : option string)
    (src : sockaddr) (srclen : N) (conn : string) :
  platform_ok E = true ->
  field_ok E name = true -> field_ok E description = true ->
  field_ok E url = true -> field_ok E email = true -> field_ok E phone = true ->
  single_line conn = true ->
  single_line (default EmptyString (source_text E src srclen)) = true ->
  line_sequence
    (unlines (session_lines E (default "Unnamed" name) (default "N/A" description)
                url email phone conn (source_text E src srclen))) = true.
Proof.
  intros Hplat Hname Hdesc Hurl Hemail Hphone Hconn Hsrc.
  apply line_sequence_unlines. apply forallb_forall. intros l Hl.
  unfold single_line. apply andb_true_iff. split.
  - pose proof (sdp_Start_lines_lack CR name description url email phone src srclen
                  conn (or_introl eq_refl) Hplat Hname Hdesc Hurl Hemail Hphone
                  Hconn Hsrc) as H.
    rewrite forallb_forall in H. now apply H.
  - pose proof (sdp_Start_lines_lack LF name description url email phone src srclen
                  conn (or_intror eq_refl) Hplat Hname Hdesc Hurl Hemail Hphone
                  Hconn Hsrc) as H.
    rewrite forallb_forall in H. now apply H.
Qed.

(** *** The census of lines *)

(** C6. When every supplied text field passes the validator, the session
    address formats to a single line, the platform texts and the
    formatted source address are single lines, and the allocator grants
    the block, session initialization returns a document that, split on
    CRLF, has exactly one [v=], one [o=], one [s=], one [i=], one [c=] and
    one [t=] line, and has a [u=], [e=] or [p=] line exactly when the url,
    email or phone was given. *)
Theorem sdp_Start_line_census
    (name description url email phone : option string)
    (src : sockaddr) (srclen : N) (addr : sockaddr) (addrlen : N)
    (connection : string) (m : store) :
  platform_ok E = true ->
  field_ok E name = true -> field_ok E description = true ->
  field_ok E url = true -> field_ok E email = true -> field_ok E phone = true ->
  AddressToSDP E addr addrlen = Some connection ->
  single_line connection = true ->
  single_line (default EmptyString (source_text E src srclen)) = true ->
  grants m = true ->
  exists p m' doc,
    sdp_Start E name description url email phone src srclen addr addrlen m
      = Ret (Some p) m'
    /\ text_at m' p = Some doc
    /\ count_lines "v=" doc = 1 /\ count_lines "o=" doc = 1
    /\ count_lines "s=" doc = 1 /\ count_lines "i=" doc = 1
    /\ count_lines "c=" doc = 1 /\ count_lines "t=" doc = 1
    /\ (has_line "u=" doc <-> url <> None)
    /\ (has_line "e=" doc <-> email <> None)
    /\ (has_line "p=" doc <-> phone <> None).
Proof.
  intros Hplat Hname Hdesc Hurl Hemail Hphone Haddr Hconn Hsrc Hgrant.
  destruct (sdp_Start_text name description url email phone src srclen addr addrlen
              connection m) as (p & m' & Hrun & Htext); try assumption.
  eexists p, m', _. split; [exact Hrun | ]. split; [exact Htext | ].
  pose proof (sdp_Start_lines_lack CR name description url email phone src srclen
                connection (or_introl eq_refl) Hplat Hname Hdesc Hurl Hemail Hphone
                Hconn Hsrc) as Hlines.
  rewrite !has_line_count, !(count_lines_unlines _ _ Hlines).
  unfold session_lines, origin_line, opt_line.
  destruct url, email, phone, (source_text E src srclen); cbn;
    rewrite ?prefix_empty; cbn;
    repeat split; try reflexivity; try congruence; try lia.
Qed.

(** *** The source filter *)

(** C8. With valid inputs and a source address of positive length,
    session initialization succeeds whether or not the source address
    formats. When it does not, the document ends with the charset
    attribute and has no [a=source-filter] line; when it does, the
    document ends with the line [a=source-filter: incl IN IPv * host],
    where [v] and [host] are the version marker and the address of the
    formatted source. *)
Theorem sdp_Start_source_filter
    (name description url email phone : option string)
    (src : sockaddr) (srclen : N) (addr : sockaddr) (addrlen : N)
    (connection : string) (m : store) :
  platform_ok E = true ->
  field_ok E name = true -> field_ok E description = true ->
  field_ok E url = true -> field_ok E email = true -> field_ok E phone = true ->
  AddressToSDP E addr addrlen = Some connection ->
  single_line connection = true ->
  (0 < srclen)%N ->
  grants m = true ->
  exists p m' doc,
    sdp_Start E name description url email phone src srclen addr addrlen m
      = Ret (Some p) m'
    /\ text_at m' p = Some doc
    /\ match AddressToSDP E src srclen with
       | None =>
           ends_with ("a=charset:UTF-8" ++ CRLF) doc
           /\ ~ has_line "a=source-filter" doc
       | Some machine =>
           exists v host,
             machine = "IN IP" ++ String v (String " " host)
             /\ ends_with (CRLF ++ "a=source-filter: incl IN IP"
                           ++ String v (" * " ++ host) ++ CRLF) doc
       end.
Proof.
  intros Hplat Hname Hdesc Hurl Hemail Hphone Haddr Hconn Hsrclen Hgrant.
  destruct (sdp_Start_text name description url email phone src srclen addr addrlen
              connection m) as (p & m' & Hrun & Htext); try assumption.
  eexists p, m', _. split; [exact Hrun | ]. split; [exact Htext | ].
  assert (Hsource : source_text E src srclen = AddressToSDP E src srclen).
  { unfold source_text. now rewrite (proj2 (N.ltb_lt _ _) Hsrclen). }
  destruct (AddressToSDP E src srclen) as [machine|] eqn:Hsrc.
  - destruct (AddressToSDP_shape E src srclen machine Hsrc) as (v & host & -> & _).
    exists v, host. split; [reflexivity | ].
    rewrite Hsource. unfold session_lines. cbn [option_map opt_line].
    change (List.app ["c=" ++ connection; "t=0 0"; "a=tool:" ++ PACKAGE_STRING E;
                      "a=recvonly"; "a=type:broadcast"; "a=charset:UTF-8"] ?x)
      with (List.app ["c=" ++ connection; "t=0 0"; "a=tool:" ++ PACKAGE_STRING E;
                      "a=recvonly"; "a=type:broadcast"] ("a=charset:UTF-8" :: x)).
    rewrite !List.app_assoc.
    apply (unlines_last_two _ "a=charset:UTF-8").
  - split.
    + rewrite Hsource. unfold session_lines. cbn [option_map opt_line].
      change (List.app ["c=" ++ connection; "t=0 0"; "a=tool:" ++ PACKAGE_STRING E;
                        "a=recvonly"; "a=type:broadcast"; "a=charset:UTF-8"] [])
        with (List.app ["c=" ++ connection; "t=0 0"; "a=tool:" ++ PACKAGE_STRING E;
                        "a=recvonly"; "a=type:broadcast"] ["a=charset:UTF-8"]).
      rewrite !List.app_assoc. apply unlines_last.
    + pose proof (sdp_Start_lines_lack CR name description url email phone src srclen
                    connection (or_introl eq_refl) Hplat Hname Hdesc Hurl Hemail Hphone
                    Hconn) as Hlines.
      rewrite Hsource in Hlines. specialize (Hlines eq_refl).
      rewrite Hsource, has_line_count, (count_lines_unlines _ _ Hlines).
      unfold session_lines, origin_line, opt_line.
      destruct url, email, phone; cbn; lia.
Qed.

End Session.

Lemma sdp_Start_rejects_unsafe_field_witness :
  sdp_Start Sample.platform (Some ("Evil" ++ CRLF ++ "a=x")) None None None None
    Sample.unix_addr 0 (Sample.inet 239 1 1 1 5004) Sample.sockaddr_in_size
    (Sample.empty_store [InPlace])
  = Ret None (Sample.empty_store [InPlace]).
Proof.
  apply (sdp_Start_rejects_unsafe_field Sample.platform _ _ _ _ _ _ _ _ _ _
           ("Evil" ++ CRLF ++ "a=x")).
  - simpl. left. reflexivity.
  - reflexivity.
Defined.

Lemma sdp_Start_line_census_witness :
  exists p m' doc,
    sdp_Start Sample.platform (Some "Test Stream") None (Some "http://example.org/")
      None (Some "+1 555 0100") (Sample.inet 10 0 0 1 0) Sample.sockaddr_in_size
      (Sample.inet 239 1 1 1 5004) Sample.sockaddr_in_size
      (Sample.empty_store [InPlace])
      = Ret (Some p) m'
    /\ text_at m' p = Some doc
    /\ count_lines "v=" doc = 1 /\ count_lines "o=" doc = 1
    /\ count_lines "s=" doc = 1 /\ count_lines "i=" doc = 1
    /\ count_lines "c=" doc = 1 /\ count_lines "t=" doc = 1
    /\ (has_line "u=" doc <-> Some "http://example.org/" <> None)
    /\ (has_line "e=" doc <-> @None string <> None)
    /\ (has_line "p=" doc <-> Some "+1 555 0100" <> None).
Proof.
  apply (sdp_Start_line_census Sample.platform (Some "Test Stream") None
           (Some "http://example.org/") None (Some "+1 555 0100")
           (Sample.inet 10 0 0 1 0) Sample.sockaddr_in_size
           (Sample.inet 239 1 1 1 5004) Sample.sockaddr_in_size
           "IN IP4 239.1.1.1/255" (Sample.empty_store [InPlace]));
    reflexivity.
Defined.

Lemma sdp_Start_source_filter_witness :
  exists p m' doc,
    sdp_Start Sample.platform (Some "Test Stream") (Some "demo") None None None
      Sample.unix_addr 2 (Sample.inet 239 1 1 1 5004) Sample.sockaddr_in_size
      (Sample.empty_store [InPlace])
      = Ret (Some p) m'
    /\ text_at m' p = Some doc
    /\ match AddressToSDP Sample.platform Sample.unix_addr 2 with
       | None =>
           ends_with ("a=charset:UTF-8" ++ CRLF) doc
           /\ ~ has_line "a=source-filter" doc
       | Some machine =>
           exists v host,
             machine = "IN IP" ++ String v (String " " host)
             /\ ends_with (CRLF ++ "a=source-filter: incl IN IP"
                           ++ String v (" * " ++ host) ++ CRLF) doc
       end.
Proof.
  apply (sdp_Start_source_filter Sample.platform (Some "Test Stream") (Some "demo")
           None None None Sample.unix_addr 2 (Sample.inet 239 1 1 1 5004)
           Sample.sockaddr_in_size "IN IP4 239.1.1.1/255"
           (Sample.empty_store [InPlace]));
    reflexivity.
Defined.

Example sdp_Start_with_source :
  exists p m doc,
    sdp_Start Sample.platform None None None None None
      (Sample.inet 10 0 0 1 0) Sample.sockaddr_in_size
      (Sample.inet 239 1 1 1 5004) Sample.sockaddr_in_size
      (Sample.empty_store [InPlace]) = Ret (Some p) m
    /\ text_at m p = Some doc
    /\ ends_with ("a=charset:UTF-8" ++ CRLF
                  ++ "a=source-filter: incl IN IP4 * 10.0.0.1" ++ CRLF) doc.
Proof.
  eexists _, _, _. split; [vm_compute; reflexivity | ].
  split; [vm_compute; reflexivity | ].
  apply has_suffix_ends_with. vm_compute. reflexivity.
Qed.

Example sdp_Start_scenario :
  exists p m,
    Sample.start_demo (Sample.empty_store [InPlace]) = Ret (Some p) m
    /\ text_at m p
       = Some (unlines
                 [ "v=0";
                   "o=- 14934824953495134208 14934824953495134208 IN IP4 studio";
                   "s=Test Stream"; "i=demo"; "c=IN IP4 239.1.1.1/255"; "t=0 0";
                   "a=tool:vlc 0.9.0-svn"; "a=recvonly"; "a=type:broadcast";
                   "a=charset:UTF-8" ]).
Proof. eexists _, _. split; vm_compute; reflexivity. Qed.

(** ** Attribute append *)

Section AttributeAppend.

(** With no format, the bare line is appended to the block that is
    returned. [*sdp] is not updated: when the block has moved, the
    caller's pointer is left on the freed address. *)
Lemma sdp_AddAttribute_bare (sdp : loc) (name : string) (m : store) (doc : string) :
  text_at m sdp = Some doc -> grants m = true ->
  exists r m',
    sdp_AddAttribute sdp name None [] m = Ret (Some r, sdp) m'
    /\ text_at m' r = Some (doc ++ "a=" ++ name ++ CRLF)
    /\ (r = sdp \/ text_at m' sdp = None).
Proof.
  intros Hdoc Hg. unfold sdp_AddAttribute, bind, strlen. rewrite Hdoc.
  change (sizeof_lit ("a=" ++ CRLF)) with 5.
  destruct (realloc_granted sdp (String.length doc + String.length name + 5)
              m doc Hdoc Hg) as (r & m1 & Hre & Hblock & Hold); [lia | ].
  rewrite Hre.
  assert (Hline : format ("a=%s" ++ CRLF) [AStr name] = Some ("a=" ++ name ++ CRLF))
    by reflexivity.
  assert (Hlen : String.length ("a=" ++ name ++ CRLF) = String.length name + 4).
  { cbn [String.append String.length]. rewrite length_append. simpl. lia. }
  rewrite (sprintf_append r _ _ m1 _ doc _ Hblock Hline) by lia.
  eexists _, _. split; [reflexivity | ].
  unfold text_at. cbn [blocks]. rewrite lookup_insert_eq. cbn [cap text].
  rewrite (proj2 (Nat.ltb_lt _ _)) by (rewrite length_append, Hlen; lia).
  split; [reflexivity | ].
  destruct Hold as [-> | Hgone]; [now left | right].
  destruct (decide (r = sdp)) as [-> | Hne].
  - rewrite Hblock in Hgone. discriminate.
  - rewrite lookup_insert_ne by assumption. now rewrite Hgone.
Qed.

(** With a format that holds no conversion, [a=name:] and the format text
    are appended, and nothing after them: no CRLF is written. *)
Lemma vsdp_AddAttribute_literal (sdp : loc) (name fmt : string) (ap : list arg)
    (m : store) (doc : string) :
  text_at m sdp = Some doc -> grants m = true -> lacks "%" fmt = true ->
  exists r m',
    vsdp_AddAttribute sdp name fmt ap m = Ret (Some r, r) m'
    /\ text_at m' r = Some (doc ++ "a=" ++ name ++ ":" ++ fmt).
Proof.
  intros Hdoc Hg Hfmt. unfold vsdp_AddAttribute, bind, strlen. rewrite Hdoc.
  unfold snprintf0, format_len. rewrite (format_literal fmt ap Hfmt). unfold ret at 1.
  change (sizeof_lit ("a=:" ++ CRLF)) with 6.
  destruct (realloc_granted sdp
              (String.length doc + (6 + String.length name + String.length fmt))
              m doc Hdoc Hg) as (r & m1 & Hre & Hblock & _); [lia | ].
  rewrite Hre.
  assert (Hhead : format "a=%s:" [AStr name] = Some ("a=" ++ name ++ ":"))
    by reflexivity.
  assert (Hheadlen : String.length ("a=" ++ name ++ ":") = String.length name + 3).
  { cbn [String.append String.length]. rewrite length_append. simpl. lia. }
  rewrite (sprintf_append r _ _ m1 _ doc _ Hblock Hhead) by lia.
  rewrite Hheadlen.
  replace (String.length doc + (String.length name + 3))
    with (String.length (doc ++ "a=" ++ name ++ ":"))
    by (rewrite length_append, Hheadlen; reflexivity).
  erewrite sprintf_append;
    [ | cbn [blocks]; apply lookup_insert_eq
      | apply (format_literal fmt [AVaList ap] Hfmt)
      | rewrite length_append, Hheadlen; lia ].
  eexists _, _. split; [reflexivity | ].
  unfold text_at. cbn [blocks]. rewrite lookup_insert_eq. cbn [cap text].
  rewrite (proj2 (Nat.ltb_lt _ _)).
  - rewrite !append_assoc. reflexivity.
  - rewrite (length_append (doc ++ _)), (length_append doc), Hheadlen. lia.
Qed.

End AttributeAppend.

(** C1. On the document [v=0] the attribute [control] with the format
    [trackID] (no conversion, no argument) is appended as
    [a=control:trackID] with no CRLF after it, although the size
    computed for the block counts one. The same call with the format
    [%u %s] and matching arguments hands the [va_list] itself to
    [sprintf] and stops in undefined behaviour after [a=rtpmap:]. With
    no format the bare line [a=control] CRLF is appended. *)
Theorem sdp_AddAttribute_value_line_unterminated :
  let doc := "v=0" ++ CRLF in
  sdp_AddAttribute 1%positive "control" (Some "trackID") []
    (Sample.one_doc doc [InPlace])
  = Ret (Some 1%positive, 1%positive)
      {| blocks := {[ 1%positive := Block 25 (doc ++ "a=control:trackID") ]};
         tape := [] |}
  /\ has_suffix CRLF (doc ++ "a=control:trackID") = false
  /\ sdp_AddAttribute 1%positive "rtpmap" (Some "%u %s") [AUInt 96; AStr "H264/90000"]
       (Sample.one_doc doc [InPlace])
     = Undef {| blocks := {[ 1%positive := Block 30 (doc ++ "a=rtpmap:") ]};
                tape := [] |}
  /\ sdp_AddAttribute 1%positive "control" None [] (Sample.one_doc doc [InPlace])
     = Ret (Some 1%positive, 1%positive)
         {| blocks := {[ 1%positive := Block 17 (doc ++ "a=control" ++ CRLF) ]};
            tape := [] |}.
Proof. repeat split; vm_compute; reflexivity. Qed.

Example sdp_AddAttribute_bare_moved :
  sdp_AddAttribute 1%positive "control" None [] (Sample.one_doc ("v=0" ++ CRLF) [Moved])
  = Ret (Some 2%positive, 1%positive)
      {| blocks := {[ 2%positive := Block 17 ("v=0" ++ CRLF ++ "a=control" ++ CRLF) ]};
         tape := [] |}.
Proof. vm_compute. reflexivity. Qed.

(** ** Media append *)

Section MediaAppend.

(** Without rtpmap and fmtp the media block is appended whole. The port
    is printed with [%u] and the payload type with [%d]. *)
Lemma sdp_AddMedia_block (NDEBUG : bool) (sdp : loc)
    (type protocol : option string) (dport : Z)
    (pt : N) (bw_indep : bool) (bw : N) (m : store) (doc : string) :
  text_at m sdp = Some doc -> grants m = true -> (pt < 128)%N ->
  exists r m',
    sdp_AddMedia NDEBUG sdp type protocol dport pt bw_indep bw None None m
      = Ret (Some r, r) m'
    /\ text_at m' r
       = Some (doc ++ "m=" ++ default "video" type ++ " "
                   ++ dec_unsigned (as_unsigned32 dport) ++ " "
                   ++ default "RTP/AVP" protocol ++ " "
                   ++ dec_signed (as_signed32 pt) ++ CRLF ++ "b=RR:0" ++ CRLF).
Proof.
  intros Hdoc Hg Hpt. unfold sdp_AddMedia, bind, strlen. rewrite Hdoc.
  rewrite (proj2 (N.ltb_lt _ _) Hpt), assert_passes.
  set (block := "m=" ++ default "video" type ++ " "
                ++ dec_unsigned (as_unsigned32 dport) ++ " "
                ++ default "RTP/AVP" protocol ++ " "
                ++ dec_signed (as_signed32 pt) ++ CRLF ++ "b=RR:0" ++ CRLF).
  assert (Hf : format media_fmt
                 [AStr (default "video" type); AInt dport;
                  AStr (default "RTP/AVP" protocol); AUInt pt] = Some block)
    by reflexivity.
  unfold snprintf0, format_len. rewrite Hf. unfold ret at 1.
  destruct (realloc_granted sdp (String.length doc + String.length block + 1)
              m doc Hdoc Hg) as (r & m1 & Hre & Hblock & _); [lia | ].
  rewrite Hre, (sprintf_append r _ _ m1 _ doc _ Hblock Hf) by lia.
  eexists _, _. split; [reflexivity | ].
  unfold text_at. cbn [blocks]. rewrite lookup_insert_eq. cbn [cap text].
  rewrite (proj2 (Nat.ltb_lt _ _)) by (rewrite length_append; lia).
  reflexivity.
Qed.

(** C9, as the code has it. In a build that keeps its assertions
    ([NDEBUG] not defined), a payload type of 128 or more on an existing
    document stops the media append at its assertion; the store at that
    point is the store the call started with. *)
Theorem sdp_AddMedia_payload_type_contract (NDEBUG : bool) (sdp : loc)
    (type protocol : option string) (dport : Z) (pt : N) (bw_indep : bool)
    (bw : N) (rtpmap fmtp : option string) (m : store) (doc : string) :
  NDEBUG = false ->
  text_at m sdp = Some doc ->
  (128 <= pt)%N ->
  sdp_AddMedia NDEBUG sdp type protocol dport pt bw_indep bw rtpmap fmtp m = Abort m.
Proof.
  intros -> Hdoc Hpt. unfold sdp_AddMedia, bind, strlen. rewrite Hdoc.
  unfold assert. apply N.ltb_ge in Hpt. rewrite Hpt. reflexivity.
Qed.

(** C10. Two media appends that start from the same store and differ
    only in the bandwidth-independence flag and the bandwidth value have
    the same outcome: the same return value, the same [*sdp] and the same
    store. *)
Theorem sdp_AddMedia_bandwidth_inert (NDEBUG : bool) (sdp : loc)
    (type protocol : option string) (dport : Z) (pt : N)
    (bw_indep bw_indep' : bool) (bw bw' : N)
    (rtpmap fmtp : option string) (m : store) :
  sdp_AddMedia NDEBUG sdp type protocol dport pt bw_indep bw rtpmap fmtp m
  = sdp_AddMedia NDEBUG sdp type protocol dport pt bw_indep' bw' rtpmap fmtp m.
Proof. unfold sdp_AddMedia. reflexivity. Qed.

End MediaAppend.

Lemma sdp_AddMedia_payload_type_contract_witness :
  sdp_AddMedia false 1%positive None None 5004 200 false 0 (Some "H264/90000") None
    (Sample.one_doc ("v=0" ++ CRLF) [InPlace; InPlace])
  = Abort (Sample.one_doc ("v=0" ++ CRLF) [InPlace; InPlace]).
Proof.
  apply (sdp_AddMedia_payload_type_contract false 1%positive None None 5004 200
           false 0 (Some "H264/90000") None _ ("v=0" ++ CRLF)).
  - reflexivity.
  - reflexivity.
  - vm_compute. discriminate.
Defined.

(** C9, as the specification words it, does not hold of every build.
    Where [NDEBUG] is defined the assertion is compiled out: the payload
    type 200 on the document [v=0] is not stopped, the block is resized
    and the media lines are written into it, [200] included. *)
Lemma sdp_AddMedia_payload_type_unchecked :
  (128 <= 200)%N
  /\ text_at (Sample.one_doc Sample.stub [InPlace]) 1%positive = Some Sample.stub
  /\ sdp_AddMedia true 1%positive None None 5004 200 false 0 None None
       (Sample.one_doc Sample.stub [InPlace])
     = Ret (Some 1%positive, 1%positive)
         {| blocks :=
              {[ 1%positive :=
                   Block 40 (Sample.stub ++ "m=video 5004 RTP/AVP 200" ++ CRLF
                             ++ "b=RR:0" ++ CRLF) ]};
            tape := [] |}
  /\ sdp_AddMedia true 1%positive None None 5004 200 false 0 None None
       (Sample.one_doc Sample.stub [InPlace])
     <> Abort (Sample.one_doc Sample.stub [InPlace]).
Proof.
  split; [vm_compute; discriminate | ].
  split; [vm_compute; reflexivity | ].
  split; [vm_compute; reflexivity | ].
  vm_compute. discriminate.
Qed.

(** C2. The media append of the scenario (type and protocol null, port
    5004, payload type 96, rtpmap [H264/90000], no fmtp) on the document
    [v=0] writes the [m=] and [b=] lines, then [a=rtpmap:], and stops in
    undefined behaviour where the [va_list] is handed to [sprintf]; no
    payload type, no codec string and no CRLF follow. Whatever the
    allocator decides, the block of the scenario is not reached. Payload
    type 96 passes the assertion, so this holds of either build. *)
Theorem sdp_AddMedia_scenario_diverges (NDEBUG : bool) :
  let doc := "v=0" ++ CRLF in
  sdp_AddMedia NDEBUG 1%positive None None 5004 96 false 0 (Some "H264/90000") None
    (Sample.one_doc doc [InPlace; InPlace])
  = Undef {| blocks :=
               {[ 1%positive :=
                    Block 63 (doc ++ "m=video 5004 RTP/AVP 96" ++ CRLF
                              ++ "b=RR:0" ++ CRLF ++ "a=rtpmap:") ]};
             tape := [] |}
  /\ forall t : list grant,
       scenario_reached doc
         (sdp_AddMedia NDEBUG 1%positive None None 5004 96 false 0
            (Some "H264/90000") None (Sample.one_doc doc t)) = false.
Proof.
  destruct NDEBUG.
  - split; [vm_compute; reflexivity | ].
    intros [|[] [|[] t]]; vm_compute; reflexivity.
  - split; [vm_compute; reflexivity | ].
    intros [|[] [|[] t]]; vm_compute; reflexivity.
Qed.

(** ** The line invariant *)

(** C3. A session is initialized and one attribute with a value is
    appended; both operations succeed, and the document that results is
    not a sequence of CRLF-terminated lines: its last line,
    [a=control:trackID], is left open. *)
Theorem line_invariant_broken_by_attribute :
  exists (p : loc) (m : store) (doc : string),
    Sample.start_then_attribute (Sample.empty_store [InPlace; InPlace])
      = Ret (Some p, p) m
    /\ text_at m p = Some doc
    /\ ends_with "a=control:trackID" doc
    /\ line_sequence doc = false.
Proof.
  eexists _, _, _. split; [vm_compute; reflexivity | ].
  split; [vm_compute; reflexivity | ].
  split; [ | vm_compute; reflexivity].
  apply has_suffix_ends_with. vm_compute. reflexivity.
Qed.

(** * Further properties *)

(** ** The address formatter, case by case *)

Section AddressCases.

Variable E : externals.

Lemma length_poke (i : nat) (c : ascii) (s : string) :
  String.length (poke i c s) = String.length s.
Proof.
  revert i. induction s as [|d s IH]; intros [|i]; simpl; auto.
Qed.

Lemma length_cut_at (c : ascii) (s : string) :
  String.length (cut_at c s) <= String.length s.
Proof.
  induction s as [|d s IH]; simpl; [lia | ].
  destruct (d =? c)%char; simpl; lia.
Qed.

Lemma lacks_cut_at (c : ascii) (s : string) : lacks c (cut_at c s) = true.
Proof.
  induction s as [|d s IH]; simpl; [reflexivity | ].
  destruct (d =? c)%char eqn:Hd; simpl; [reflexivity | ]. now rewrite Hd, IH.
Qed.

Lemma cut_at_prefix (c : ascii) (s : string) : starts_with (cut_at c s) s.
Proof.
  induction s as [|d s [suf IH]]; simpl.
  - now exists EmptyString.
  - destruct (d =? c)%char.
    + now exists (String d s).
    + exists suf. simpl. now rewrite <- IH.
Qed.

Lemma cut_at_absent (c : ascii) (s : string) : strchr s c = None -> cut_at c s = s.
Proof.
  induction s as [|d s IH]; simpl; [reflexivity | ].
  destruct (d =? c)%char; [discriminate | ]. intros H. now rewrite IH.
Qed.

Lemma length_skip (n : nat) (s : string) :
  String.length (skip n s) = String.length s - n.
Proof.
  revert s. induction n as [|n IH]; intros [|c s]; simpl; auto.
Qed.

(** X1. The formatter returns NULL in exactly three cases: the address is
    too short to hold its family tag, the numeric-host conversion fails,
    or the family is neither [AF_INET] nor [AF_INET6]. *)
Theorem AddressToSDP_fails_iff (addr : sockaddr) (addrlen : N) :
  AddressToSDP E addr addrlen = None
  <-> (addrlen < sa_family_offset + sa_family_size)%N
      \/ fst (vlc_getnameinfo E addr addrlen (MAXSDPADDRESS - 7) NI_NUMERICHOST) <> 0%Z
      \/ (sa_family addr <> AF_INET /\ sa_family addr <> AF_INET6).
Proof.
  unfold AddressToSDP.
  destruct (N.ltb_spec addrlen (sa_family_offset + sa_family_size)) as [Hlt | Hge].
  { split; auto. }
  destruct (vlc_getnameinfo E addr addrlen _ _) as [rc host]. cbn [fst].
  destruct (N.eqb_spec (sa_family addr) AF_INET) as [H4 | H4];
    destruct (N.eqb_spec (sa_family addr) AF_INET6) as [H6 | H6];
    destruct rc as [|rc|rc]; split; intros H; try discriminate H; auto;
    try (right; left; discriminate);
    try (destruct H as [H | [H | [Ha Hb]]]; [lia | congruence | congruence]).
Qed.

(** X2. For an IPv4 address the text is [IN IP4 ], the numeric host, and
    [/255] when the address is multicast; nothing is added otherwise. *)
Theorem AddressToSDP_ipv4_text (addr : sockaddr) (addrlen : N) (host : string) :
  sa_family addr = AF_INET ->
  (sa_family_offset + sa_family_size <= addrlen)%N ->
  vlc_getnameinfo E addr addrlen (MAXSDPADDRESS - 7) NI_NUMERICHOST = (0%Z, host) ->
  AddressToSDP E addr addrlen
  = Some ("IN IP4 " ++ host
          ++ (if net_SockAddrIsMulticast E addr addrlen then "/255" else EmptyString)).
Proof.
  intros Hfam Hlen Hhost. unfold AddressToSDP.
  apply N.ltb_ge in Hlen. rewrite Hlen, Hhost, Hfam, N.eqb_refl.
  destruct (net_SockAddrIsMulticast E addr addrlen).
  - reflexivity.
  - rewrite append_empty_r. reflexivity.
Qed.

(** X3. For an IPv6 address the text is [IN IP6 ] and the numeric host
    up to its first [%]: the scope id is cut off, no [%] is left, and no
    [/255] is added even for a multicast address. *)
Theorem AddressToSDP_ipv6_text (addr : sockaddr) (addrlen : N) (host : string) :
  sa_family addr = AF_INET6 ->
  (sa_family_offset + sa_family_size <= addrlen)%N ->
  vlc_getnameinfo E addr addrlen (MAXSDPADDRESS - 7) NI_NUMERICHOST = (0%Z, host) ->
  AddressToSDP E addr addrlen = Some ("IN IP6 " ++ cut_at "%" host)
  /\ lacks "%" ("IN IP6 " ++ cut_at "%" host) = true
  /\ starts_with (cut_at "%" host) host.
Proof.
  intros Hfam Hlen Hhost. unfold AddressToSDP.
  apply N.ltb_ge in Hlen. rewrite Hlen, Hhost, Hfam. cbn [N.eqb AF_INET6 AF_INET Pos.eqb].
  split; [ | split; [ | apply cut_at_prefix]].
  - simpl. destruct (strchr host "%") eqn:Hs; [reflexivity | ].
    now rewrite (cut_at_absent "%" host Hs).
  - simpl. apply lacks_cut_at.
Qed.

(** X4. When the numeric-host conversion keeps to the 40 bytes it is
    given, and to [INET_ADDRSTRLEN] for an IPv4 address, the formatted
    text and its terminator fit the [MAXSDPADDRESS] bytes of the caller's
    buffer, the [/255] suffix included. *)
Theorem AddressToSDP_fits_buffer (addr : sockaddr) (addrlen : N) (out : string) :
  AddressToSDP E addr addrlen = Some out ->
  String.length (snd (vlc_getnameinfo E addr addrlen (MAXSDPADDRESS - 7) NI_NUMERICHOST))
    < MAXSDPADDRESS - 7 ->
  (sa_family addr = AF_INET ->
   String.length (snd (vlc_getnameinfo E addr addrlen (MAXSDPADDRESS - 7) NI_NUMERICHOST))
     < INET_ADDRSTRLEN) ->
  String.length out < MAXSDPADDRESS.
Proof.
  unfold AddressToSDP, INET_ADDRSTRLEN. intros Hout Hbound H4.
  destruct (addrlen <? _)%N; [discriminate | ].
  destruct (vlc_getnameinfo E addr addrlen _ _) as [[|rc|rc] host]; try discriminate.
  cbn [snd] in *. change (MAXSDPADDRESS - 7) with 40 in Hbound.
  destruct (N.eqb_spec (sa_family addr) AF_INET) as [Hfam | Hfam].
  - specialize (H4 Hfam). injection Hout as <-. rewrite length_poke.
    destruct (net_SockAddrIsMulticast E addr addrlen);
      unfold write_at; simpl; rewrite ?length_append; simpl;
      unfold MAXSDPADDRESS; lia.
  - destruct (sa_family addr =? AF_INET6)%N; [ | discriminate].
    injection Hout as <-. rewrite length_poke.
    pose proof (length_cut_at "%" host) as Hcut.
    destruct (strchr _ _); unfold write_at; simpl; unfold MAXSDPADDRESS; lia.
Qed.

End AddressCases.

Lemma AddressToSDP_ipv4_text_witness :
  AddressToSDP Sample.platform (Sample.inet 239 1 1 1 5004) Sample.sockaddr_in_size
  = Some ("IN IP4 " ++ "239.1.1.1"
          ++ (if net_SockAddrIsMulticast Sample.platform (Sample.inet 239 1 1 1 5004)
                   Sample.sockaddr_in_size
              then "/255" else EmptyString)).
Proof.
  apply (AddressToSDP_ipv4_text Sample.platform (Sample.inet 239 1 1 1 5004)
           Sample.sockaddr_in_size "239.1.1.1").
  - reflexivity.
  - vm_compute. discriminate.
  - reflexivity.
Defined.

Lemma AddressToSDP_ipv6_text_witness :
  AddressToSDP Sample.platform Sample.link_local Sample.sockaddr_in6_size
  = Some ("IN IP6 " ++ cut_at "%" "fe80:0:0:0:0:0:0:1%2")
  /\ lacks "%" ("IN IP6 " ++ cut_at "%" "fe80:0:0:0:0:0:0:1%2") = true
  /\ starts_with (cut_at "%" "fe80:0:0:0:0:0:0:1%2") "fe80:0:0:0:0:0:0:1%2".
Proof.
  apply (AddressToSDP_ipv6_text Sample.platform Sample.link_local
           Sample.sockaddr_in6_size "fe80:0:0:0:0:0:0:1%2").
  - reflexivity.
  - vm_compute. discriminate.
  - reflexivity.
Defined.

Lemma AddressToSDP_fits_buffer_witness :
  String.length "IN IP4 239.1.1.1/255" < MAXSDPADDRESS.
Proof.
  apply (AddressToSDP_fits_buffer Sample.platform (Sample.inet 239 1 1 1 5004)
           Sample.sockaddr_in_size "IN IP4 239.1.1.1/255").
  - reflexivity.
  - vm_compute. lia.
  - intros _. vm_compute. lia.
Defined.

(** ** The validator against line injection *)

Section Injection.

Variable E : externals.

(** X5. A text the validator accepts cannot open a new line: written
    after a tag that holds no CR and before a CRLF, it gives one line. *)
Theorem IsSDPString_no_injection (tag s rest : string) :
  IsSDPString E s = true -> lacks CR tag = true ->
  split_crlf (tag ++ s ++ CRLF ++ rest) = (tag ++ s) :: split_crlf rest.
Proof.
  intros Hs Htag. apply IsSDPString_single_line in Hs.
  unfold single_line in Hs. apply andb_prop in Hs as [Hcr _].
  rewrite <- append_assoc. apply split_crlf_line.
  now rewrite lacks_append, Htag, Hcr.
Qed.

End Injection.

Lemma IsSDPString_no_injection_witness :
  split_crlf ("s=" ++ "Test Stream" ++ CRLF ++ "i=demo")
  = ("s=" ++ "Test Stream") :: split_crlf "i=demo".
Proof.
  apply (IsSDPString_no_injection Sample.platform "s=" "Test Stream" "i=demo");
    reflexivity.
Defined.

(** ** Steps of the store *)

Section StoreSteps.

Lemma next_grant_refused (m : store) :
  grants m = false ->
  exists m1, next_grant m = (Refuse, m1) /\ blocks m1 = blocks m.
Proof.
  unfold grants, next_grant. destruct (tape m) as [|[] t]; try discriminate; eauto.
Qed.

Lemma realloc_refused (p : loc) (n : nat) (m : store) (doc : string) :
  text_at m p = Some doc -> grants m = false ->
  exists m1, realloc p n m = Ret None m1 /\ blocks m1 = blocks m.
Proof.
  intros Hdoc Hg. unfold realloc. unfold text_at in Hdoc.
  destruct (blocks m !! p); [ | discriminate].
  destruct (next_grant_refused m Hg) as (m1 & -> & Hb). eauto.
Qed.

Lemma realloc_step (p : loc) (n : nat) (m : store) (doc : string)
    (g : grant) (t : list grant) :
  text_at m p = Some doc -> tape m = g :: t -> granted g = true ->
  String.length doc < n ->
  exists r,
    realloc p n m = Ret (Some r) (replace_block p r (Block n doc) t m)
    /\ (g = InPlace -> r = p)
    /\ (g = Moved -> r <> p /\ blocks m !! r = None).
Proof.
  unfold text_at, realloc, next_grant, replace_block. intros Hdoc Ht Hg Hn.
  destruct (blocks m !! p) as [b|] eqn:Hb; [ | discriminate].
  destruct (String.length (text b) <? cap b)%nat; [ | discriminate].
  injection Hdoc as <-. rewrite Ht. cbn [blocks tape].
  assert (Hres : resize n b = Block n (text b)).
  { unfold resize. f_equal. apply keep_all. lia. }
  rewrite Hres. destruct g; try discriminate.
  - exists p. rewrite insert_delete_eq. split; [reflexivity | ].
    split; [reflexivity | discriminate].
  - exists (fresh (dom (blocks m))). split; [reflexivity | ].
    split; [discriminate | ]. intros _.
    assert (Hfresh : blocks m !! fresh (dom (blocks m)) = None).
    { apply not_elem_of_dom. apply is_fresh. }
    split; [ | exact Hfresh]. intros Heq. rewrite Heq, Hb in Hfresh. discriminate.
Qed.

Lemma text_at_replace (p r : loc) (c : nat) (s : string) (t : list grant) (m : store) :
  String.length s < c -> text_at (replace_block p r (Block c s) t m) r = Some s.
Proof.
  intros H. unfold text_at, replace_block. cbn [blocks].
  rewrite lookup_insert_eq. cbn [cap text]. now rewrite (proj2 (Nat.ltb_lt _ _) H).
Qed.

Lemma text_at_replace_old (p r : loc) (b : block) (t : list grant) (m : store) :
  r <> p -> text_at (replace_block p r b t m) p = None.
Proof.
  intros H. unfold text_at, replace_block. cbn [blocks].
  rewrite lookup_insert_ne by assumption. now rewrite lookup_delete_eq.
Qed.

Lemma text_at_replace_other (p r q : loc) (b : block) (t : list grant) (m : store) :
  q <> p -> q <> r -> text_at (replace_block p r b t m) q = text_at m q.
Proof.
  intros Hp Hr. unfold text_at, replace_block. cbn [blocks].
  rewrite lookup_insert_ne by congruence. now rewrite lookup_delete_ne by congruence.
Qed.

Lemma sprintf_replace (p r : loc) (fmt : string) (args : list arg) (m : store)
    (c : nat) (txt s : string) (t : list grant) :
  format fmt args = Some s ->
  String.length txt + String.length s < c ->
  sprintf r (String.length txt) fmt args (replace_block p r (Block c txt) t m)
  = Ret (String.length s) (replace_block p r (Block c (txt ++ s)) t m).
Proof.
  intros Hf Hfit. unfold replace_block.
  erewrite sprintf_append; [ | cbn [blocks]; apply lookup_insert_eq | exact Hf | exact Hfit].
  cbn [blocks tape]. now rewrite insert_insert_eq.
Qed.

Lemma sprintf_undefined (p r : loc) (off : nat) (fmt : string) (args : list arg) (m : store) :
  format fmt args = None -> sprintf r off fmt args m = Undef m.
Proof. intros Hf. unfold sprintf. now rewrite Hf. Qed.

End StoreSteps.

(** ** Session initialization: its outcomes *)

Section SessionOutcomes.

Variable E : externals.

Lemma alloc_text_step (s : string) (m : store) (g : grant) (t : list grant) :
  tape m = g :: t -> granted g = true ->
  exists q,
    alloc_text s m = Ret (Some q) (add_block q (Block (S (String.length s)) s) t m)
    /\ blocks m !! q = None.
Proof.
  intros Ht Hg. unfold alloc_text, next_grant, add_block. rewrite Ht. cbn [blocks tape].
  exists (fresh (dom (blocks m))).
  split; [destruct g; [discriminate | reflexivity | reflexivity] | ].
  apply not_elem_of_dom. apply is_fresh.
Qed.

Lemma alloc_text_refused (s : string) (m : store) :
  grants m = false ->
  exists m', alloc_text s m = Ret None m' /\ blocks m' = blocks m.
Proof.
  intros Hg. unfold alloc_text.
  destruct (next_grant_refused m Hg) as (m1 & -> & Hb). eauto.
Qed.

Lemma fields_ok_inv (name description url email phone : option string) :
  fields_ok E name description url email phone = true ->
  field_ok E name = true /\ field_ok E description = true /\ field_ok E url = true
  /\ field_ok E email = true /\ field_ok E phone = true.
Proof. unfold fields_ok. rewrite !andb_true_iff. tauto. Qed.

(** With a sound platform, valid fields and a session address that
    formats, [sdp_Start] is the allocation of the session text. *)
Lemma sdp_Start_run (name description url email phone : option string)
    (src : sockaddr) (srclen : N) (addr : sockaddr) (addrlen : N)
    (conn : string) (m : store) :
  platform_ok E = true ->
  fields_ok E name description url email phone = true ->
  AddressToSDP E addr addrlen = Some conn ->
  sdp_Start E name description url email phone src srclen addr addrlen m
  = alloc_text
      (unlines (session_lines E (default "Unnamed" name) (default "N/A" description)
                  url email phone conn (source_text E src srclen))) m.
Proof.
  intros Hplat Hfields Haddr.
  apply platform_ok_inv in Hplat as (Hhost & Hpkg & Hpct & Hu1 & Hu2 & Hu3).
  apply fields_ok_inv in Hfields as (Hname & Hdesc & Hurl & Hemail & Hphone).
  unfold sdp_Start.
  rewrite (field_default E name "Unnamed"), (field_default E description "N/A"),
    (field_default E url EmptyString), (field_default E email EmptyString),
    (field_default E phone EmptyString);
    try assumption; try (apply IsSDPString_literal; [reflexivity | assumption]).
  cbn [negb orb]. rewrite Haddr. unfold bind, source_text.
  destruct (0 <? srclen)%N; [destruct (AddressToSDP E src srclen) as [machine|] | ];
    unfold sprintf_local, ret, asprintf.
  - rewrite format_source_filter.
    now rewrite (format_session E _ _ url email phone conn (Some machine)) by assumption.
  - now rewrite (format_session E _ _ url email phone conn None) by assumption.
  - now rewrite (format_session E _ _ url email phone conn None) by assumption.
Qed.

Lemma field_bad (o : option string) (d : string) :
  field_ok E o = false -> IsSDPString E (default d o) = false.
Proof. destruct o; simpl; [auto | discriminate]. Qed.

Lemma sdp_Start_invalid (name description url email phone : option string)
    (src : sockaddr) (srclen : N) (addr : sockaddr) (addrlen : N) (m : store) :
  fields_ok E name description url email phone = false ->
  sdp_Start E name description url email phone src srclen addr addrlen m = Ret None m.
Proof.
  unfold fields_ok, sdp_Start. intros H.
  destruct (field_ok E name) eqn:H1; [ | now rewrite (field_bad name _ H1)].
  destruct (field_ok E description) eqn:H2;
    [ | rewrite (field_bad description _ H2); now rewrite orb_true_r].
  destruct (field_ok E url) eqn:H3;
    [ | rewrite (field_bad url _ H3); now rewrite !orb_true_r].
  destruct (field_ok E email) eqn:H4;
    [ | rewrite (field_bad email _ H4); now rewrite !orb_true_r].
  destruct (field_ok E phone) eqn:H5; [discriminate | ].
  rewrite (field_bad phone _ H5). now rewrite !orb_true_r.
Qed.

(** X6. On a sound platform and with an allocator that grants the block,
    session initialization returns NULL with the store untouched exactly
    when a supplied field fails the validator or the session address does
    not format. *)
Theorem sdp_Start_null_iff (name description url email phone : option string)
    (src : sockaddr) (srclen : N) (addr : sockaddr) (addrlen : N) (m : store) :
  platform_ok E = true -> grants m = true ->
  (sdp_Start E name description url email phone src srclen addr addrlen m = Ret None m
   <-> fields_ok E name description url email phone = false
       \/ AddressToSDP E addr addrlen = None).
Proof.
  intros Hplat Hg. split.
  - intros Hrun.
    destruct (fields_ok E name description url email phone) eqn:Hf; [ | now left].
    destruct (AddressToSDP E addr addrlen) as [conn|] eqn:Ha; [ | now right].
    exfalso. rewrite (sdp_Start_run name description url email phone src srclen addr
                        addrlen conn m Hplat Hf Ha) in Hrun.
    destruct (alloc_text_grants
                (unlines (session_lines E (default "Unnamed" name)
                            (default "N/A" description) url email phone conn
                            (source_text E src srclen))) m Hg) as (p & m' & Hal & _).
    congruence.
  - intros [Hf | Ha].
    + now apply sdp_Start_invalid.
    + now apply sdp_Start_rejects_bad_address.
Qed.

(** X7. With valid input, when [asprintf] gets no memory, session
    initialization returns NULL and the blocks of the store are as they
    were. *)
Theorem sdp_Start_allocation_refused (name description url email phone : option string)
    (src : sockaddr) (srclen : N) (addr : sockaddr) (addrlen : N)
    (conn : string) (m : store) :
  platform_ok E = true ->
  fields_ok E name description url email phone = true ->
  AddressToSDP E addr addrlen = Some conn ->
  grants m = false ->
  exists m',
    sdp_Start E name description url email phone src srclen addr addrlen m = Ret None m'
    /\ blocks m' = blocks m.
Proof.
  intros Hplat Hf Ha Hg.
  rewrite (sdp_Start_run name description url email phone src srclen addr addrlen conn m
             Hplat Hf Ha).
  now apply alloc_text_refused.
Qed.

(** X8. A successful session initialization returns an address that was
    free and that now holds the document, takes one decision from the
    allocator and leaves every other block alone. *)
Theorem sdp_Start_fresh_block (name description url email phone : option string)
    (src : sockaddr) (srclen : N) (addr : sockaddr) (addrlen : N)
    (conn : string) (m : store) (g : grant) (t : list grant) :
  platform_ok E = true ->
  fields_ok E name description url email phone = true ->
  AddressToSDP E addr addrlen = Some conn ->
  tape m = g :: t -> granted g = true ->
  exists p m',
    sdp_Start E name description url email phone src srclen addr addrlen m
      = Ret (Some p) m'
    /\ blocks m !! p = None
    /\ text_at m' p
       = Some (unlines (session_lines E (default "Unnamed" name)
                          (default "N/A" description) url email phone conn
                          (source_text E src srclen)))
    /\ tape m' = t
    /\ (forall q, q <> p -> blocks m' !! q = blocks m !! q).
Proof.
  intros Hplat Hf Ha Ht Hg.
  rewrite (sdp_Start_run name description url email phone src srclen addr addrlen conn m
             Hplat Hf Ha).
  destruct (alloc_text_step
              (unlines (session_lines E (default "Unnamed" name)
                          (default "N/A" description) url email phone conn
                          (source_text E src srclen))) m g t Ht Hg) as (q & Hal & Hq).
  eexists q, _. split; [exact Hal | ]. split; [exact Hq | ].
  unfold text_at, add_block. cbn [blocks tape].
  split; [ | split; [reflexivity | ]].
  - rewrite lookup_insert_eq. cbn [cap text].
    now rewrite (proj2 (Nat.ltb_lt _ _)) by lia.
  - intros p Hp. now rewrite lookup_insert_ne by congruence.
Qed.

(** X9. The lines of a new session, in order, are those of
    [session_lines]: version, origin, name, information, the optional
    url, email and phone, connection, time, the four fixed attributes and
    the optional source filter; after the last CRLF nothing follows. *)
Theorem sdp_Start_lines_in_order (name description url email phone : option string)
    (src : sockaddr) (srclen : N) (addr : sockaddr) (addrlen : N)
    (conn : string) (m : store) :
  platform_ok E = true ->
  fields_ok E name description url email phone = true ->
  AddressToSDP E addr addrlen = Some conn ->
  single_line conn = true ->
  single_line (default EmptyString (source_text E src srclen)) = true ->
  grants m = true ->
  exists p m' doc,
    sdp_Start E name description url email phone src srclen addr addrlen m
      = Ret (Some p) m'
    /\ text_at m' p = Some doc
    /\ split_crlf doc
       = List.app
           (session_lines E (default "Unnamed" name) (default "N/A" description)
              url email phone conn (source_text E src srclen))
           [EmptyString].
Proof.
  intros Hplat Hf Ha Hconn Hsrc Hg.
  rewrite (sdp_Start_run name description url email phone src srclen addr addrlen conn m
             Hplat Hf Ha).
  destruct (alloc_text_grants
              (unlines (session_lines E (default "Unnamed" name)
                          (default "N/A" description) url email phone conn
                          (source_text E src srclen))) m Hg) as (p & m' & Hal & Htext).
  eexists p, m', _. split; [exact Hal | ]. split; [exact Htext | ].
  apply fields_ok_inv in Hf as (Hname & Hdesc & Hurl & Hemail & Hphone).
  apply split_crlf_unlines. now apply sdp_Start_lines_lack; auto.
Qed.

(** X10. A new session is a well-formed sequence of lines: every line is
    closed by CRLF and none holds a stray CR or LF. *)
Theorem sdp_Start_well_formed (name description url email phone : option string)
    (src : sockaddr) (srclen : N) (addr : sockaddr) (addrlen : N)
    (conn : string) (m : store) :
  platform_ok E = true ->
  fields_ok E name description url email phone = true ->
  AddressToSDP E addr addrlen = Some conn ->
  single_line conn = true ->
  single_line (default EmptyString (source_text E src srclen)) = true ->
  grants m = true ->
  exists p m' doc,
    sdp_Start E name description url email phone src srclen addr addrlen m
      = Ret (Some p) m'
    /\ text_at m' p = Some doc
    /\ line_sequence doc = true.
Proof.
  intros Hplat Hf Ha Hconn Hsrc Hg.
  rewrite (sdp_Start_run name description url email phone src srclen addr addrlen conn m
             Hplat Hf Ha).
  destruct (alloc_text_grants
              (unlines (session_lines E (default "Unnamed" name)
                          (default "N/A" description) url email phone conn
                          (source_text E src srclen))) m Hg) as (p & m' & Hal & Htext).
  eexists p, m', _. split; [exact Hal | ]. split; [exact Htext | ].
  apply fields_ok_inv in Hf as (Hname & Hdesc & Hurl & Hemail & Hphone).
  now apply sdp_Start_line_sequence.
Qed.

(** X11. When the formatted source address fits its [MAXSDPADDRESS]
    bytes, the source-filter text that [sdp_Start] prints and its
    terminator fit the local array [sfilter]. *)
Theorem source_filter_fits (machine : string) :
  String.length machine < MAXSDPADDRESS ->
  exists s,
    format source_filter_fmt [AChar (char_at 5 machine); AStr (skip 7 machine)] = Some s
    /\ String.length s < sfilter_size.
Proof.
  intros H. eexists. split; [apply format_source_filter | ].
  change sfilter_size with 74. unfold MAXSDPADDRESS in H.
  unfold source_filter_line. cbn -[skip char_at]. rewrite length_skip. lia.
Qed.

End SessionOutcomes.

Lemma sdp_Start_null_iff_witness :
  sdp_Start Sample.platform (Some "Test Stream") (Some "demo") None None None
    Sample.unix_addr 0 Sample.unix_addr 2 (Sample.empty_store [InPlace])
  = Ret None (Sample.empty_store [InPlace])
  <-> fields_ok Sample.platform (Some "Test Stream") (Some "demo") None None None = false
      \/ AddressToSDP Sample.platform Sample.unix_addr 2 = None.
Proof.
  apply (sdp_Start_null_iff Sample.platform (Some "Test Stream") (Some "demo")
           None None None Sample.unix_addr 0 Sample.unix_addr 2
           (Sample.empty_store [InPlace]));
    reflexivity.
Defined.

Lemma sdp_Start_allocation_refused_witness :
  exists m',
    sdp_Start Sample.platform (Some "Test Stream") (Some "demo") None None None
      Sample.unix_addr 0 (Sample.inet 239 1 1 1 5004) Sample.sockaddr_in_size
      (Sample.empty_store [Refuse]) = Ret None m'
    /\ blocks m' = blocks (Sample.empty_store [Refuse]).
Proof.
  apply (sdp_Start_allocation_refused Sample.platform (Some "Test Stream") (Some "demo")
           None None None Sample.unix_addr 0 (Sample.inet 239 1 1 1 5004)
           Sample.sockaddr_in_size "IN IP4 239.1.1.1/255" (Sample.empty_store [Refuse]));
    reflexivity.
Defined.

Lemma sdp_Start_fresh_block_witness :
  exists p m',
    sdp_Start Sample.platform (Some "Test Stream") (Some "demo") None None None
      Sample.unix_addr 0 (Sample.inet 239 1 1 1 5004) Sample.sockaddr_in_size
      (Sample.one_doc Sample.stub [InPlace]) = Ret (Some p) m'
    /\ blocks (Sample.one_doc Sample.stub [InPlace]) !! p = None
    /\ text_at m' p
       = Some (unlines (session_lines Sample.platform "Test Stream" "demo"
                          None None None "IN IP4 239.1.1.1/255" None))
    /\ tape m' = []
    /\ (forall q, q <> p ->
          blocks m' !! q = blocks (Sample.one_doc Sample.stub [InPlace]) !! q).
Proof.
  apply (sdp_Start_fresh_block Sample.platform (Some "Test Stream") (Some "demo")
           None None None Sample.unix_addr 0 (Sample.inet 239 1 1 1 5004)
           Sample.sockaddr_in_size "IN IP4 239.1.1.1/255"
           (Sample.one_doc Sample.stub [InPlace]) InPlace []);
    reflexivity.
Defined.

Lemma sdp_Start_lines_in_order_witness :
  exists p m' doc,
    sdp_Start Sample.platform None (Some "demo") (Some "http://example.org/") None None
      (Sample.inet 10 0 0 1 0) Sample.sockaddr_in_size
      (Sample.inet 239 1 1 1 5004) Sample.sockaddr_in_size
      (Sample.empty_store [InPlace]) = Ret (Some p) m'
    /\ text_at m' p = Some doc
    /\ split_crlf doc
       = List.app
           (session_lines Sample.platform (default "Unnamed" None)
              (default "N/A" (Some "demo")) (Some "http://example.org/") None None
              "IN IP4 239.1.1.1/255"
              (source_text Sample.platform (Sample.inet 10 0 0 1 0)
                 Sample.sockaddr_in_size))
           [EmptyString].
Proof.
  apply (sdp_Start_lines_in_order Sample.platform None (Some "demo")
           (Some "http://example.org/") None None
           (Sample.inet 10 0 0 1 0) Sample.sockaddr_in_size
           (Sample.inet 239 1 1 1 5004) Sample.sockaddr_in_size
           "IN IP4 239.1.1.1/255" (Sample.empty_store [InPlace]));
    reflexivity.
Defined.

Lemma sdp_Start_well_formed_witness :
  exists p m' doc,
    sdp_Start Sample.platform None (Some "demo") (Some "http://example.org/") None None
      (Sample.inet 10 0 0 1 0) Sample.sockaddr_in_size
      (Sample.inet 239 1 1 1 5004) Sample.sockaddr_in_size
      (Sample.empty_store [InPlace]) = Ret (Some p) m'
    /\ text_at m' p = Some doc
    /\ line_sequence doc = true.
Proof.
  apply (sdp_Start_well_formed Sample.platform None (Some "demo")
           (Some "http://example.org/") None None
           (Sample.inet 10 0 0 1 0) Sample.sockaddr_in_size
           (Sample.inet 239 1 1 1 5004) Sample.sockaddr_in_size
           "IN IP4 239.1.1.1/255" (Sample.empty_store [InPlace]));
    reflexivity.
Defined.

Lemma source_filter_fits_witness :
  exists s,
    format source_filter_fmt
      [AChar (char_at 5 "IN IP4 10.0.0.1"); AStr (skip 7 "IN IP4 10.0.0.1")] = Some s
    /\ String.length s < sfilter_size.
Proof.
  apply (source_filter_fits "IN IP4 10.0.0.1"). vm_compute. lia.
Defined.

(** ** Steps of the append operations *)

Section AppendSteps.

Lemma bare_line_length (name : string) :
  String.length ("a=" ++ name ++ CRLF) = String.length name + 4.
Proof. cbn [String.append String.length]. rewrite length_append. simpl. lia. Qed.

Lemma head_length (name : string) :
  String.length ("a=" ++ name ++ ":") = String.length name + 3.
Proof. cbn [String.append String.length]. rewrite length_append. simpl. lia. Qed.

Lemma sdp_AddAttribute_bare_step (sdp : loc) (name : string) (m : store)
    (doc : string) (g : grant) (t : list grant) :
  text_at m sdp = Some doc -> tape m = g :: t -> granted g = true ->
  exists r,
    sdp_AddAttribute sdp name None [] m
    = Ret (Some r, sdp)
        (replace_block sdp r
           (Block (String.length doc + String.length name + 5)
                  (doc ++ "a=" ++ name ++ CRLF)) t m)
    /\ (g = InPlace -> r = sdp)
    /\ (g = Moved -> r <> sdp /\ blocks m !! r = None).
Proof.
  intros Hdoc Ht Hg. unfold sdp_AddAttribute, bind, strlen. rewrite Hdoc.
  change (sizeof_lit ("a=" ++ CRLF)) with 5.
  destruct (realloc_step sdp (String.length doc + String.length name + 5) m doc g t
              Hdoc Ht Hg) as (r & Hre & Hin & Hmv); [lia | ].
  rewrite Hre. exists r.
  rewrite (sprintf_replace sdp r ("a=%s" ++ CRLF) [AStr name] m _ doc
             ("a=" ++ name ++ CRLF) t eq_refl)
    by (rewrite bare_line_length; lia).
  auto.
Qed.

Lemma vsdp_AddAttribute_head (sdp : loc) (name fmt v : string) (ap : list arg)
    (m : store) (doc : string) (g : grant) (t : list grant) :
  text_at m sdp = Some doc -> tape m = g :: t -> granted g = true ->
  format fmt ap = Some v ->
  exists r,
    vsdp_AddAttribute sdp name fmt ap m
    = match sprintf r (String.length (doc ++ "a=" ++ name ++ ":")) fmt [AVaList ap]
              (replace_block sdp r
                 (Block (String.length doc + (6 + String.length name + String.length v))
                        (doc ++ "a=" ++ name ++ ":")) t m) with
      | Ret _ m' => Ret (Some r, r) m'
      | Abort m' => Abort m'
      | Undef m' => Undef m'
      end
    /\ (g = InPlace -> r = sdp)
    /\ (g = Moved -> r <> sdp /\ blocks m !! r = None).
Proof.
  intros Hdoc Ht Hg Hv. unfold vsdp_AddAttribute, bind, strlen. rewrite Hdoc.
  unfold snprintf0, format_len. rewrite Hv. unfold ret at 1.
  change (sizeof_lit ("a=:" ++ CRLF)) with 6.
  destruct (realloc_step sdp
              (String.length doc + (6 + String.length name + String.length v)) m doc g t
              Hdoc Ht Hg) as (r & Hre & Hin & Hmv); [lia | ].
  rewrite Hre. exists r.
  rewrite (sprintf_replace sdp r "a=%s:" [AStr name] m _ doc
             ("a=" ++ name ++ ":") t eq_refl)
    by (rewrite head_length; lia).
  rewrite (length_append doc). auto.
Qed.

Lemma sdp_AddMedia_step (NDEBUG : bool) (sdp : loc)
    (type protocol : option string) (dport : Z)
    (pt : N) (bw_indep : bool) (bw : N) (m : store) (doc : string)
    (g : grant) (t : list grant) :
  text_at m sdp = Some doc -> tape m = g :: t -> granted g = true -> (pt < 128)%N ->
  let block := "m=" ++ default "video" type ++ " "
               ++ dec_unsigned (as_unsigned32 dport) ++ " "
               ++ default "RTP/AVP" protocol ++ " "
               ++ dec_signed (as_signed32 pt) ++ CRLF ++ "b=RR:0" ++ CRLF in
  exists r,
    sdp_AddMedia NDEBUG sdp type protocol dport pt bw_indep bw None None m
    = Ret (Some r, r)
        (replace_block sdp r
           (Block (String.length doc + String.length block + 1) (doc ++ block)) t m)
    /\ (g = InPlace -> r = sdp)
    /\ (g = Moved -> r <> sdp /\ blocks m !! r = None).
Proof.
  intros Hdoc Ht Hg Hpt block. unfold sdp_AddMedia, bind, strlen. rewrite Hdoc.
  rewrite (proj2 (N.ltb_lt _ _) Hpt), assert_passes.
  assert (Hf : format media_fmt
                 [AStr (default "video" type); AInt dport;
                  AStr (default "RTP/AVP" protocol); AUInt pt] = Some block)
    by reflexivity.
  unfold snprintf0, format_len. rewrite Hf. unfold ret at 1.
  destruct (realloc_step sdp (String.length doc + String.length block + 1) m doc g t
              Hdoc Ht Hg) as (r & Hre & Hin & Hmv); [lia | ].
  rewrite Hre, (sprintf_replace sdp r _ _ m _ doc block t Hf) by lia.
  exists r. auto.
Qed.

End AppendSteps.

(** ** Attribute append: its outcomes *)

Section AttributeOutcomes.

(** X12. With no format and a granted [realloc], the returned block holds
    the old text followed by [a=name] CRLF and is exactly one byte longer
    than that text; one allocator decision is taken and the other blocks
    are untouched. *)
Theorem sdp_AddAttribute_bare_block (sdp : loc) (name : string) (m : store)
    (doc : string) (g : grant) (t : list grant) :
  text_at m sdp = Some doc -> tape m = g :: t -> granted g = true ->
  exists r m',
    sdp_AddAttribute sdp name None [] m = Ret (Some r, sdp) m'
    /\ blocks m' !! r
       = Some (Block (S (String.length (doc ++ "a=" ++ name ++ CRLF)))
                     (doc ++ "a=" ++ name ++ CRLF))
    /\ tape m' = t
    /\ forall q, q <> sdp -> q <> r -> blocks m' !! q = blocks m !! q.
Proof.
  intros Hdoc Ht Hg.
  destruct (sdp_AddAttribute_bare_step sdp name m doc g t Hdoc Ht Hg) as (r & Hrun & _).
  eexists r, _. split; [exact Hrun | ]. unfold replace_block. cbn [blocks tape].
  split; [ | split; [reflexivity | ]].
  - rewrite lookup_insert_eq. do 2 f_equal.
    rewrite length_append, bare_line_length. lia.
  - intros q Hq Hr. rewrite lookup_insert_ne by congruence.
    now rewrite lookup_delete_ne by congruence.
Qed.

(** X13. With no format, when [realloc] moves the block, the new text is
    only reachable through the return value: [*sdp] still holds the freed
    address, and any later append through it is undefined behaviour. *)
Theorem sdp_AddAttribute_bare_stale_pointer (sdp : loc) (name : string) (m : store)
    (doc : string) (t : list grant) :
  text_at m sdp = Some doc -> tape m = Moved :: t ->
  exists r m',
    sdp_AddAttribute sdp name None [] m = Ret (Some r, sdp) m'
    /\ r <> sdp
    /\ text_at m' r = Some (doc ++ "a=" ++ name ++ CRLF)
    /\ text_at m' sdp = None
    /\ (forall name' fmt' args',
          sdp_AddAttribute sdp name' fmt' args' m' = Undef m')
    /\ (forall NDEBUG type protocol dport pt bw_indep bw rtpmap fmtp,
          sdp_AddMedia NDEBUG sdp type protocol dport pt bw_indep bw rtpmap fmtp m'
          = Undef m').
Proof.
  intros Hdoc Ht.
  destruct (sdp_AddAttribute_bare_step sdp name m doc Moved t Hdoc Ht eq_refl)
    as (r & Hrun & _ & Hmv).
  destruct (Hmv eq_refl) as [Hne _].
  eexists r, _. split; [exact Hrun | ]. split; [exact Hne | ].
  split; [apply text_at_replace; rewrite length_append, bare_line_length; lia | ].
  pose proof (text_at_replace_old sdp r
                (Block (String.length doc + String.length name + 5)
                       (doc ++ "a=" ++ name ++ CRLF)) t m Hne) as Hdead.
  split; [exact Hdead | ]. split.
  - intros name' [fmt'|] args'; unfold sdp_AddAttribute, vsdp_AddAttribute, bind, strlen;
      now rewrite Hdead.
  - intros. unfold sdp_AddMedia, bind, strlen. now rewrite Hdead.
Qed.

(** X14. Two bare attributes appended one after the other, the second
    through the pointer the first returned, follow the old text in call
    order, each on its own line. *)
Theorem sdp_AddAttribute_bare_twice (sdp : loc) (a b : string) (m : store)
    (doc : string) (g1 g2 : grant) (t : list grant) :
  text_at m sdp = Some doc -> tape m = g1 :: g2 :: t ->
  granted g1 = true -> granted g2 = true ->
  exists r1 r2 m1 m2,
    sdp_AddAttribute sdp a None [] m = Ret (Some r1, sdp) m1
    /\ sdp_AddAttribute r1 b None [] m1 = Ret (Some r2, r1) m2
    /\ text_at m2 r2 = Some (doc ++ "a=" ++ a ++ CRLF ++ "a=" ++ b ++ CRLF).
Proof.
  intros Hdoc Ht Hg1 Hg2.
  destruct (sdp_AddAttribute_bare_step sdp a m doc g1 (g2 :: t) Hdoc Ht Hg1)
    as (r1 & Hrun1 & _).
  set (m1 := replace_block sdp r1
               (Block (String.length doc + String.length a + 5)
                      (doc ++ "a=" ++ a ++ CRLF)) (g2 :: t) m) in *.
  assert (Hdoc1 : text_at m1 r1 = Some (doc ++ "a=" ++ a ++ CRLF))
    by (apply text_at_replace; rewrite length_append, bare_line_length; lia).
  destruct (sdp_AddAttribute_bare_step r1 b m1 _ g2 t Hdoc1 eq_refl Hg2)
    as (r2 & Hrun2 & _).
  eexists r1, r2, m1, _. split; [exact Hrun1 | ]. split; [exact Hrun2 | ].
  rewrite text_at_replace by (rewrite length_append, bare_line_length; lia).
  now rewrite !append_assoc.
Qed.

(** X15. With a format that holds no conversion and a granted [realloc],
    the block holds the old text followed by [a=name:] and the format
    text, with no CRLF; it is three bytes longer than the text (the two
    bytes counted for CRLF stay unused), and [*sdp] is updated to it. *)
Theorem vsdp_AddAttribute_literal_block (sdp : loc) (name fmt : string) (ap : list arg)
    (m : store) (doc : string) (g : grant) (t : list grant) :
  text_at m sdp = Some doc -> tape m = g :: t -> granted g = true ->
  lacks "%" fmt = true ->
  exists r m',
    vsdp_AddAttribute sdp name fmt ap m = Ret (Some r, r) m'
    /\ blocks m' !! r
       = Some (Block (String.length (doc ++ "a=" ++ name ++ ":" ++ fmt) + 3)
                     (doc ++ "a=" ++ name ++ ":" ++ fmt))
    /\ (g = InPlace -> r = sdp)
    /\ (g = Moved -> r <> sdp /\ text_at m' sdp = None).
Proof.
  intros Hdoc Ht Hg Hfmt.
  destruct (vsdp_AddAttribute_head sdp name fmt fmt ap m doc g t Hdoc Ht Hg
              (format_literal fmt ap Hfmt)) as (r & Hrun & Hin & Hmv).
  rewrite (sprintf_replace sdp r fmt [AVaList ap] m _ _ fmt t
             (format_literal fmt [AVaList ap] Hfmt)) in Hrun
    by (rewrite length_append, head_length; lia).
  eexists r, _. split; [exact Hrun | ]. split.
  - unfold replace_block. cbn [blocks]. rewrite lookup_insert_eq.
    rewrite !append_assoc. do 2 f_equal.
    rewrite <- !append_assoc, !length_append. simpl. lia.
  - split; [exact Hin | ]. intros Hm. destruct (Hmv Hm) as [Hne _].
    split; [exact Hne | ]. now apply text_at_replace_old.
Qed.

(** X16. When the format holds a conversion that the [va_list] object
    cannot satisfy, the append stops in undefined behaviour after it has
    written [a=name:]. *)
Theorem vsdp_AddAttribute_conversion_undefined (sdp : loc) (name fmt v : string)
    (ap : list arg) (m : store) (doc : string) (g : grant) (t : list grant) :
  text_at m sdp = Some doc -> tape m = g :: t -> granted g = true ->
  format fmt ap = Some v ->
  format fmt [AVaList ap] = None ->
  exists r m',
    vsdp_AddAttribute sdp name fmt ap m = Undef m'
    /\ text_at m' r = Some (doc ++ "a=" ++ name ++ ":").
Proof.
  intros Hdoc Ht Hg Hv Hva.
  destruct (vsdp_AddAttribute_head sdp name fmt v ap m doc g t Hdoc Ht Hg Hv)
    as (r & Hrun & _).
  rewrite (sprintf_undefined sdp r _ fmt [AVaList ap] _ Hva) in Hrun.
  eexists r, _. split; [exact Hrun | ].
  apply text_at_replace. rewrite length_append, head_length. lia.
Qed.

(** X17. When [realloc] fails, an attribute append returns NULL, leaves
    [*sdp] as it was and changes no block. *)
Theorem sdp_AddAttribute_refused (sdp : loc) (name : string) (fmt : option string)
    (args : list arg) (m : store) (doc : string) :
  text_at m sdp = Some doc -> grants m = false -> measurable fmt args = true ->
  exists m',
    sdp_AddAttribute sdp name fmt args m = Ret (None, sdp) m'
    /\ blocks m' = blocks m.
Proof.
  intros Hdoc Hg Hmeas.
  destruct fmt as [fmt|]; simpl in Hmeas;
    unfold sdp_AddAttribute, vsdp_AddAttribute, bind, strlen; rewrite Hdoc.
  - unfold snprintf0, format_len. destruct (format fmt args) as [v|]; [ | discriminate].
    unfold ret at 1.
    destruct (realloc_refused sdp
                (String.length doc + (sizeof_lit ("a=:" ++ CRLF) + String.length name
                                      + String.length v)) m doc Hdoc Hg)
      as (m1 & -> & Hb). eauto.
  - destruct (realloc_refused sdp
                (String.length doc + String.length name + sizeof_lit ("a=" ++ CRLF))
                m doc Hdoc Hg) as (m1 & -> & Hb). eauto.
Qed.

End AttributeOutcomes.

Lemma sdp_AddAttribute_bare_block_witness :
  exists r m',
    sdp_AddAttribute 1%positive "recvonly" None [] (Sample.one_doc Sample.stub [InPlace])
      = Ret (Some r, 1%positive) m'
    /\ blocks m' !! r
       = Some (Block (S (String.length (Sample.stub ++ "a=" ++ "recvonly" ++ CRLF)))
                     (Sample.stub ++ "a=" ++ "recvonly" ++ CRLF))
    /\ tape m' = []
    /\ forall q, q <> 1%positive -> q <> r ->
         blocks m' !! q = blocks (Sample.one_doc Sample.stub [InPlace]) !! q.
Proof.
  apply (sdp_AddAttribute_bare_block 1%positive "recvonly"
           (Sample.one_doc Sample.stub [InPlace]) Sample.stub InPlace []);
    reflexivity.
Defined.

Lemma sdp_AddAttribute_bare_stale_pointer_witness :
  exists r m',
    sdp_AddAttribute 1%positive "recvonly" None [] (Sample.one_doc Sample.stub [Moved])
      = Ret (Some r, 1%positive) m'
    /\ r <> 1%positive
    /\ text_at m' r = Some (Sample.stub ++ "a=" ++ "recvonly" ++ CRLF)
    /\ text_at m' 1%positive = None
    /\ (forall name' fmt' args',
          sdp_AddAttribute 1%positive name' fmt' args' m' = Undef m')
    /\ (forall NDEBUG type protocol dport pt bw_indep bw rtpmap fmtp,
          sdp_AddMedia NDEBUG 1%positive type protocol dport pt bw_indep bw rtpmap fmtp m'
          = Undef m').
Proof.
  apply (sdp_AddAttribute_bare_stale_pointer 1%positive "recvonly"
           (Sample.one_doc Sample.stub [Moved]) Sample.stub []);
    reflexivity.
Defined.

Lemma sdp_AddAttribute_bare_twice_witness :
  exists r1 r2 m1 m2,
    sdp_AddAttribute 1%positive "recvonly" None []
      (Sample.one_doc Sample.stub [InPlace; Moved]) = Ret (Some r1, 1%positive) m1
    /\ sdp_AddAttribute r1 "type:broadcast" None [] m1 = Ret (Some r2, r1) m2
    /\ text_at m2 r2
       = Some (Sample.stub ++ "a=" ++ "recvonly" ++ CRLF
               ++ "a=" ++ "type:broadcast" ++ CRLF).
Proof.
  apply (sdp_AddAttribute_bare_twice 1%positive "recvonly" "type:broadcast"
           (Sample.one_doc Sample.stub [InPlace; Moved]) Sample.stub InPlace Moved []);
    reflexivity.
Defined.

Lemma vsdp_AddAttribute_literal_block_witness :
  exists r m',
    vsdp_AddAttribute 1%positive "control" "trackID" []
      (Sample.one_doc Sample.stub [InPlace]) = Ret (Some r, r) m'
    /\ blocks m' !! r
       = Some (Block (String.length (Sample.stub ++ "a=" ++ "control" ++ ":" ++ "trackID")
                      + 3)
                     (Sample.stub ++ "a=" ++ "control" ++ ":" ++ "trackID"))
    /\ (InPlace = InPlace -> r = 1%positive)
    /\ (InPlace = Moved -> r <> 1%positive /\ text_at m' 1%positive = None).
Proof.
  apply (vsdp_AddAttribute_literal_block 1%positive "control" "trackID" []
           (Sample.one_doc Sample.stub [InPlace]) Sample.stub InPlace []);
    reflexivity.
Defined.

Lemma vsdp_AddAttribute_conversion_undefined_witness :
  exists r m',
    vsdp_AddAttribute 1%positive "rtpmap" "%u %s" [AUInt 96; AStr "H264/90000"]
      (Sample.one_doc Sample.stub [InPlace]) = Undef m'
    /\ text_at m' r = Some (Sample.stub ++ "a=" ++ "rtpmap" ++ ":").
Proof.
  apply (vsdp_AddAttribute_conversion_undefined 1%positive "rtpmap" "%u %s"
           "96 H264/90000" [AUInt 96; AStr "H264/90000"]
           (Sample.one_doc Sample.stub [InPlace]) Sample.stub InPlace []);
    reflexivity.
Defined.

Lemma sdp_AddAttribute_refused_witness :
  exists m',
    sdp_AddAttribute 1%positive "control" (Some "trackID") []
      (Sample.one_doc Sample.stub [Refuse]) = Ret (None, 1%positive) m'
    /\ blocks m' = blocks (Sample.one_doc Sample.stub [Refuse]).
Proof.
  apply (sdp_AddAttribute_refused 1%positive "control" (Some "trackID") []
           (Sample.one_doc Sample.stub [Refuse]) Sample.stub);
    reflexivity.
Defined.

(** ** Media append: its outcomes *)

Section MediaOutcomes.

Lemma as_unsigned32_small (z : Z) :
  (0 <= z < 2 ^ 32)%Z -> as_unsigned32 z = Z.to_N z.
Proof. intros H. unfold as_unsigned32. now rewrite Z.mod_small. Qed.

Lemma dec_signed_of_N (n : N) : dec_signed (Z.of_N n) = dec_unsigned n.
Proof. destruct n; reflexivity. Qed.

Lemma as_signed32_small (n : N) :
  (n < 2 ^ 31)%N -> as_signed32 n = Z.of_N n.
Proof.
  intros H. unfold as_signed32.
  assert (Hz : (0 <= Z.of_N n < 2 ^ 31)%Z).
  { split; [lia | ]. change (2 ^ 31)%Z with (Z.of_N (2 ^ 31)). lia. }
  rewrite Z.mod_small by lia. cbv zeta.
  now rewrite (proj2 (Z.ltb_lt _ _)) by lia.
Qed.

Lemma realloc_refuse_step (p : loc) (n : nat) (m : store) (doc : string)
    (t : list grant) :
  text_at m p = Some doc -> tape m = Refuse :: t ->
  realloc p n m = Ret None {| blocks := blocks m; tape := t |}.
Proof.
  intros Hdoc Ht. unfold realloc, next_grant. unfold text_at in Hdoc.
  destruct (blocks m !! p); [ | discriminate]. now rewrite Ht.
Qed.

Lemma sdp_AddMedia_plain_step (NDEBUG : bool) (sdp : loc)
    (type protocol : option string) (dport : Z)
    (pt : N) (bw_indep : bool) (bw : N) (m : store) (doc : string)
    (g : grant) (t : list grant) :
  text_at m sdp = Some doc -> tape m = g :: t -> granted g = true ->
  (0 <= dport < 2 ^ 31)%Z -> (pt < 128)%N ->
  exists r,
    sdp_AddMedia NDEBUG sdp type protocol dport pt bw_indep bw None None m
    = Ret (Some r, r)
        (replace_block sdp r
           (Block (S (String.length (doc ++ media_block type protocol dport pt)))
                  (doc ++ media_block type protocol dport pt)) t m)
    /\ (g = InPlace -> r = sdp)
    /\ (g = Moved -> r <> sdp /\ blocks m !! r = None).
Proof.
  intros Hdoc Ht Hg Hport Hpt.
  destruct (sdp_AddMedia_step NDEBUG sdp type protocol dport pt bw_indep bw m doc g t
              Hdoc Ht Hg Hpt) as (r & Hrun & Hrest).
  exists r. split; [ | exact Hrest]. rewrite Hrun. cbv zeta.
  rewrite as_unsigned32_small by lia.
  rewrite as_signed32_small, dec_signed_of_N by lia.
  fold (media_block type protocol dport pt).
  rewrite (length_append doc). do 3 f_equal. lia.
Qed.

(** X18. Without rtpmap and fmtp, for a port in 0..2^31-1 and a payload
    type below 128, the media append puts the old text followed by
    [m=type port protocol pt] CRLF [b=RR:0] CRLF (type and protocol
    defaulting to [video] and [RTP/AVP]) into a block exactly one byte
    longer, updates [*sdp] to it and touches no other block. *)
Theorem sdp_AddMedia_plain_block (NDEBUG : bool) (sdp : loc)
    (type protocol : option string) (dport : Z)
    (pt : N) (bw_indep : bool) (bw : N) (m : store) (doc : string)
    (g : grant) (t : list grant) :
  text_at m sdp = Some doc -> tape m = g :: t -> granted g = true ->
  (0 <= dport < 2 ^ 31)%Z -> (pt < 128)%N ->
  exists r m',
    sdp_AddMedia NDEBUG sdp type protocol dport pt bw_indep bw None None m
      = Ret (Some r, r) m'
    /\ blocks m' !! r
       = Some (Block (S (String.length (doc ++ media_block type protocol dport pt)))
                     (doc ++ media_block type protocol dport pt))
    /\ tape m' = t
    /\ (forall q, q <> sdp -> q <> r -> blocks m' !! q = blocks m !! q).
Proof.
  intros Hdoc Ht Hg Hport Hpt.
  destruct (sdp_AddMedia_plain_step NDEBUG sdp type protocol dport pt bw_indep bw m doc g t
              Hdoc Ht Hg Hport Hpt) as (r & Hrun & _).
  eexists r, _. split; [exact Hrun | ]. unfold replace_block. cbn [blocks tape].
  split; [apply lookup_insert_eq | ]. split; [reflexivity | ].
  intros q Hq Hr. rewrite lookup_insert_ne by congruence.
  now rewrite lookup_delete_ne by congruence.
Qed.

(** X19. When [realloc] fails, the media append returns NULL, leaves
    [*sdp] as it was and changes no block, whatever attributes were asked
    for. *)
Theorem sdp_AddMedia_refused (NDEBUG : bool) (sdp : loc)
    (type protocol : option string) (dport : Z)
    (pt : N) (bw_indep : bool) (bw : N) (rtpmap fmtp : option string)
    (m : store) (doc : string) :
  text_at m sdp = Some doc -> grants m = false -> (pt < 128)%N ->
  exists m',
    sdp_AddMedia NDEBUG sdp type protocol dport pt bw_indep bw rtpmap fmtp m
      = Ret (None, sdp) m'
    /\ blocks m' = blocks m.
Proof.
  intros Hdoc Hg Hpt. unfold sdp_AddMedia, bind, strlen. rewrite Hdoc.
  rewrite (proj2 (N.ltb_lt _ _) Hpt), assert_passes.
  unfold snprintf0, format_len.
  destruct (format media_fmt _) as [s|] eqn:Hf; [ | discriminate Hf].
  unfold ret at 1.
  destruct (realloc_refused sdp (String.length doc + String.length s + 1) m doc Hdoc Hg)
    as (m1 & -> & Hb). eauto.
Qed.

(** X20. Two media appends without attributes, the second on the pointer
    the first left in [*sdp], put their blocks after the old text in call
    order. *)
Theorem sdp_AddMedia_twice (NDEBUG : bool) (sdp : loc)
    (type1 protocol1 type2 protocol2 : option string)
    (dport1 dport2 : Z) (pt1 pt2 : N) (bw_indep1 bw_indep2 : bool) (bw1 bw2 : N)
    (m : store) (doc : string) (g1 g2 : grant) (t : list grant) :
  text_at m sdp = Some doc -> tape m = g1 :: g2 :: t ->
  granted g1 = true -> granted g2 = true ->
  (0 <= dport1 < 2 ^ 31)%Z -> (pt1 < 128)%N ->
  (0 <= dport2 < 2 ^ 31)%Z -> (pt2 < 128)%N ->
  exists r1 r2 m1 m2,
    sdp_AddMedia NDEBUG sdp type1 protocol1 dport1 pt1 bw_indep1 bw1 None None m
      = Ret (Some r1, r1) m1
    /\ sdp_AddMedia NDEBUG r1 type2 protocol2 dport2 pt2 bw_indep2 bw2 None None m1
       = Ret (Some r2, r2) m2
    /\ text_at m2 r2
       = Some (doc ++ media_block type1 protocol1 dport1 pt1
                   ++ media_block type2 protocol2 dport2 pt2).
Proof.
  intros Hdoc Ht Hg1 Hg2 Hport1 Hpt1 Hport2 Hpt2.
  destruct (sdp_AddMedia_plain_step NDEBUG sdp type1 protocol1 dport1 pt1 bw_indep1 bw1 m doc
              g1 (g2 :: t) Hdoc Ht Hg1 Hport1 Hpt1) as (r1 & Hrun1 & _).
  set (m1 := replace_block sdp r1 _ (g2 :: t) m) in *.
  assert (Hdoc1 : text_at m1 r1 = Some (doc ++ media_block type1 protocol1 dport1 pt1))
    by (apply text_at_replace; lia).
  destruct (sdp_AddMedia_plain_step NDEBUG r1 type2 protocol2 dport2 pt2 bw_indep2 bw2 m1 _
              g2 t Hdoc1 eq_refl Hg2 Hport2 Hpt2) as (r2 & Hrun2 & _).
  eexists r1, r2, m1, _. split; [exact Hrun1 | ]. split; [exact Hrun2 | ].
  rewrite text_at_replace by lia. now rewrite append_assoc.
Qed.

End MediaOutcomes.

Section MediaAttributes.

Lemma sdp_AddMedia_split (NDEBUG : bool) (sdp : loc)
    (type protocol : option string) (dport : Z)
    (pt : N) (bw_indep : bool) (bw : N) (rtpmap fmtp : option string)
    (m : store) (doc : string) (g : grant) (t : list grant) :
  text_at m sdp = Some doc -> tape m = g :: t -> granted g = true ->
  (0 <= dport < 2 ^ 31)%Z -> (pt < 128)%N ->
  exists r,
    sdp_AddMedia NDEBUG sdp type protocol dport pt bw_indep bw rtpmap fmtp m
    = media_tail r pt rtpmap fmtp
        (replace_block sdp r
           (Block (S (String.length (doc ++ media_block type protocol dport pt)))
                  (doc ++ media_block type protocol dport pt)) t m).
Proof.
  intros Hdoc Ht Hg Hport Hpt. unfold sdp_AddMedia, bind, strlen. rewrite Hdoc.
  rewrite (proj2 (N.ltb_lt _ _) Hpt), assert_passes.
  assert (Hf : format media_fmt
                 [AStr (default "video" type); AInt dport;
                  AStr (default "RTP/AVP" protocol); AUInt pt]
               = Some (media_block type protocol dport pt)).
  { unfold media_block. rewrite <- (as_unsigned32_small dport) by lia.
    rewrite <- (dec_signed_of_N pt), <- (as_signed32_small pt) by lia. reflexivity. }
  unfold snprintf0, format_len. rewrite Hf. unfold ret at 1.
  destruct (realloc_step sdp
              (String.length doc + String.length (media_block type protocol dport pt) + 1)
              m doc g t Hdoc Ht Hg) as (r & Hre & _); [lia | ].
  rewrite Hre, (sprintf_replace sdp r _ _ m _ doc _ t Hf) by lia.
  exists r. rewrite (length_append doc).
  replace (String.length doc + String.length (media_block type protocol dport pt) + 1)
    with (S (String.length doc + String.length (media_block type protocol dport pt)))
    by lia.
  reflexivity.
Qed.

Lemma text_at_blocks (m m' : store) (p : loc) :
  blocks m = blocks m' -> text_at m p = text_at m' p.
Proof. unfold text_at. now intros ->. Qed.

Lemma vsdp_AddAttribute_refuse_step (sdp : loc) (name fmt v : string) (ap : list arg)
    (m : store) (doc : string) (t : list grant) :
  text_at m sdp = Some doc -> tape m = Refuse :: t -> format fmt ap = Some v ->
  vsdp_AddAttribute sdp name fmt ap m
  = Ret (None, sdp) {| blocks := blocks m; tape := t |}.
Proof.
  intros Hdoc Ht Hv. unfold vsdp_AddAttribute, bind, strlen. rewrite Hdoc.
  unfold snprintf0, format_len. rewrite Hv. unfold ret at 1.
  now rewrite (realloc_refuse_step sdp _ m doc t Hdoc Ht).
Qed.

Lemma vsdp_AddAttribute_undefined_step (sdp : loc) (name fmt v : string)
    (ap : list arg) (m : store) (doc : string) (g : grant) (t : list grant) :
  text_at m sdp = Some doc -> tape m = g :: t -> granted g = true ->
  format fmt ap = Some v ->
  format fmt [AVaList ap] = None ->
  exists r,
    vsdp_AddAttribute sdp name fmt ap m
    = Undef (replace_block sdp r
               (Block (String.length doc + (6 + String.length name + String.length v))
                      (doc ++ "a=" ++ name ++ ":")) t m).
Proof.
  intros Hdoc Ht Hg Hv Hva.
  destruct (vsdp_AddAttribute_head sdp name fmt v ap m doc g t Hdoc Ht Hg Hv)
    as (r & Hrun & _).
  rewrite (sprintf_undefined sdp r _ fmt [AVaList ap] _ Hva) in Hrun. eauto.
Qed.

Lemma payload_format (pt : N) (x : string) :
  format "%u %s" [AUInt pt; AStr x]
  = Some (dec_unsigned (pt mod 2 ^ 32) ++ String " " (x ++ EmptyString)).
Proof. reflexivity. Qed.

(** X21. With an rtpmap and granted allocations, the media append writes
    its [m=] and [b=] lines and [a=rtpmap:], and then stops in undefined
    behaviour, whatever the codec string is. *)
Theorem sdp_AddMedia_attribute_undefined (NDEBUG : bool) (sdp : loc)
    (type protocol : option string)
    (dport : Z) (pt : N) (bw_indep : bool) (bw : N) (rtpmap : string)
    (fmtp : option string) (m : store) (doc : string) (g1 g2 : grant)
    (t : list grant) :
  text_at m sdp = Some doc -> tape m = g1 :: g2 :: t ->
  granted g1 = true -> granted g2 = true ->
  (0 <= dport < 2 ^ 31)%Z -> (pt < 128)%N ->
  exists r m',
    sdp_AddMedia NDEBUG sdp type protocol dport pt bw_indep bw (Some rtpmap) fmtp m = Undef m'
    /\ text_at m' r
       = Some (doc ++ media_block type protocol dport pt ++ "a=rtpmap:").
Proof.
  intros Hdoc Ht Hg1 Hg2 Hport Hpt.
  destruct (sdp_AddMedia_split NDEBUG sdp type protocol dport pt bw_indep bw (Some rtpmap) fmtp
              m doc g1 (g2 :: t) Hdoc Ht Hg1 Hport Hpt) as (r1 & ->).
  set (m1 := replace_block sdp r1 _ (g2 :: t) m).
  assert (Hdoc1 : text_at m1 r1 = Some (doc ++ media_block type protocol dport pt))
    by (apply text_at_replace; lia).
  destruct (vsdp_AddAttribute_undefined_step r1 "rtpmap" "%u %s" _
              [AUInt pt; AStr rtpmap] m1 _ g2 t Hdoc1 eq_refl Hg2
              (payload_format pt rtpmap) eq_refl) as (r & Hun).
  unfold media_tail, bind, sdp_AddAttribute. rewrite Hun.
  eexists r, _. split; [reflexivity | ].
  rewrite text_at_replace; [now rewrite append_assoc | ].
  rewrite length_append. simpl. lia.
Qed.

(** X22. When the allocations for the attributes fail, the media append
    still returns the block with its [m=] and [b=] lines: the failure of
    the rtpmap or fmtp line is not reported. *)
Theorem sdp_AddMedia_attribute_refusal_unreported (NDEBUG : bool) (sdp : loc)
    (type protocol : option string) (dport : Z) (pt : N) (bw_indep : bool) (bw : N)
    (rtpmap fmtp : option string) (m : store) (doc : string) (g : grant)
    (t : list grant) :
  text_at m sdp = Some doc -> tape m = g :: Refuse :: Refuse :: t ->
  granted g = true ->
  (0 <= dport < 2 ^ 31)%Z -> (pt < 128)%N ->
  exists r m',
    sdp_AddMedia NDEBUG sdp type protocol dport pt bw_indep bw rtpmap fmtp m
      = Ret (Some r, r) m'
    /\ text_at m' r = Some (doc ++ media_block type protocol dport pt).
Proof.
  intros Hdoc Ht Hg Hport Hpt.
  destruct (sdp_AddMedia_split NDEBUG sdp type protocol dport pt bw_indep bw rtpmap fmtp
              m doc g (Refuse :: Refuse :: t) Hdoc Ht Hg Hport Hpt) as (r & ->).
  set (m1 := replace_block sdp r _ (Refuse :: Refuse :: t) m).
  assert (Hdoc1 : text_at m1 r = Some (doc ++ media_block type protocol dport pt))
    by (apply text_at_replace; lia).
  exists r. unfold media_tail, bind, sdp_AddAttribute.
  destruct rtpmap as [x|], fmtp as [y|].
  - rewrite (vsdp_AddAttribute_refuse_step r "rtpmap" _ _ _ m1 _ _ Hdoc1 eq_refl
               (payload_format pt x)). cbn [snd].
    erewrite vsdp_AddAttribute_refuse_step;
      [ | exact Hdoc1 | reflexivity | apply payload_format ].
    eexists. split; [reflexivity | exact Hdoc1].
  - rewrite (vsdp_AddAttribute_refuse_step r "rtpmap" _ _ _ m1 _ _ Hdoc1 eq_refl
               (payload_format pt x)).
    eexists. split; [reflexivity | exact Hdoc1].
  - unfold ret at 1. cbn [snd].
    rewrite (vsdp_AddAttribute_refuse_step r "fmtp" _ _ _ m1 _ _ Hdoc1 eq_refl
               (payload_format pt y)).
    eexists. split; [reflexivity | exact Hdoc1].
  - eexists. split; [reflexivity | exact Hdoc1].
Qed.

End MediaAttributes.

Lemma sdp_AddMedia_plain_block_witness :
  exists r m',
    sdp_AddMedia false 1%positive None None 5004 96 false 0 None None
      (Sample.one_doc Sample.stub [InPlace]) = Ret (Some r, r) m'
    /\ blocks m' !! r
       = Some (Block (S (String.length (Sample.stub ++ media_block None None 5004 96)))
                     (Sample.stub ++ media_block None None 5004 96))
    /\ tape m' = []
    /\ (forall q, q <> 1%positive -> q <> r ->
          blocks m' !! q = blocks (Sample.one_doc Sample.stub [InPlace]) !! q).
Proof.
  apply (sdp_AddMedia_plain_block false 1%positive None None 5004 96 false 0
           (Sample.one_doc Sample.stub [InPlace]) Sample.stub InPlace []);
    try reflexivity; lia.
Defined.

Lemma sdp_AddMedia_refused_witness :
  exists m',
    sdp_AddMedia false 1%positive None None 5004 96 false 0 (Some "H264/90000") None
      (Sample.one_doc Sample.stub [Refuse]) = Ret (None, 1%positive) m'
    /\ blocks m' = blocks (Sample.one_doc Sample.stub [Refuse]).
Proof.
  apply (sdp_AddMedia_refused false 1%positive None None 5004 96 false 0
           (Some "H264/90000") None (Sample.one_doc Sample.stub [Refuse]) Sample.stub);
    try reflexivity; lia.
Defined.

Lemma sdp_AddMedia_twice_witness :
  exists r1 r2 m1 m2,
    sdp_AddMedia false 1%positive (Some "audio") None 5006 14 false 0 None None
      (Sample.one_doc Sample.stub [Moved; InPlace]) = Ret (Some r1, r1) m1
    /\ sdp_AddMedia false r1 None None 5004 96 false 0 None None m1 = Ret (Some r2, r2) m2
    /\ text_at m2 r2
       = Some (Sample.stub ++ media_block (Some "audio") None 5006 14
               ++ media_block None None 5004 96).
Proof.
  apply (sdp_AddMedia_twice false 1%positive (Some "audio") None None None 5006 5004 14 96
           false false 0 0 (Sample.one_doc Sample.stub [Moved; InPlace]) Sample.stub
           Moved InPlace []);
    try reflexivity; lia.
Defined.

Lemma sdp_AddMedia_attribute_undefined_witness :
  exists r m',
    sdp_AddMedia false 1%positive None None 5004 96 false 0 (Some "H264/90000") None
      (Sample.one_doc Sample.stub [InPlace; InPlace]) = Undef m'
    /\ text_at m' r = Some (Sample.stub ++ media_block None None 5004 96 ++ "a=rtpmap:").
Proof.
  apply (sdp_AddMedia_attribute_undefined false 1%positive None None 5004 96 false 0
           "H264/90000" None (Sample.one_doc Sample.stub [InPlace; InPlace]) Sample.stub
           InPlace InPlace []);
    try reflexivity; lia.
Defined.

Lemma sdp_AddMedia_attribute_refusal_unreported_witness :
  exists r m',
    sdp_AddMedia false 1%positive None None 5004 96 false 0 (Some "H264/90000")
      (Some "packetization-mode=1")
      (Sample.one_doc Sample.stub [InPlace; Refuse; Refuse]) = Ret (Some r, r) m'
    /\ text_at m' r = Some (Sample.stub ++ media_block None None 5004 96).
Proof.
  apply (sdp_AddMedia_attribute_refusal_unreported false 1%positive None None 5004 96 false 0
           (Some "H264/90000") (Some "packetization-mode=1")
           (Sample.one_doc Sample.stub [InPlace; Refuse; Refuse]) Sample.stub InPlace []);
    try reflexivity; lia.
Defined.

(** ** Splitting and joining lines *)

Section LineInvariant.

Lemma push_nonempty (c : ascii) (ls : list string) : push c ls <> [].
Proof. destruct ls; discriminate. Qed.

Lemma split_crlf_nonempty (s : string) : split_crlf s <> [].
Proof.
  destruct s as [|c [|d r]]; cbn [split_crlf].
  - discriminate.
  - apply push_nonempty.
  - destruct ((c =? CR)%char && (d =? LF)%char); [discriminate | apply push_nonempty].
Qed.

Lemma concat_push (c : ascii) (ls : list string) :
  ls <> [] -> String.concat CRLF (push c ls) = String c (String.concat CRLF ls).
Proof. destruct ls as [|l [|k ls]]; [congruence | reflexivity | reflexivity]. Qed.

Lemma split_crlf_two (c d : ascii) (r : string) :
  split_crlf (String c (String d r))
  = if ((c =? CR) && (d =? LF))%char then EmptyString :: split_crlf r
    else push c (split_crlf (String d r)).
Proof. reflexivity. Qed.

Lemma concat_split_bounded (n : nat) :
  forall s, String.length s <= n -> String.concat CRLF (split_crlf s) = s.
Proof.
  induction n as [|n IH]; intros [|c rest] Hlen; try reflexivity; simpl in Hlen; try lia.
  destruct rest as [|d rest']; [reflexivity | ].
  rewrite split_crlf_two.
  destruct ((c =? CR)%char && (d =? LF)%char) eqn:Hcd.
  - apply andb_prop in Hcd as [Hc Hd].
    apply Ascii.eqb_eq in Hc. apply Ascii.eqb_eq in Hd. subst c d.
    pose proof (split_crlf_nonempty rest') as Hne.
    destruct (split_crlf rest') as [|l ls] eqn:Hs; [congruence | ].
    change (String.concat CRLF (EmptyString :: l :: ls))
      with (CRLF ++ String.concat CRLF (l :: ls)).
    rewrite <- Hs, IH by (simpl in Hlen; lia). reflexivity.
  - rewrite concat_push by apply split_crlf_nonempty.
    now rewrite IH by lia.
Qed.

(** Splitting loses nothing: the pieces joined by CRLF are the text. *)
Lemma concat_split (s : string) : String.concat CRLF (split_crlf s) = s.
Proof. now apply (concat_split_bounded (String.length s)). Qed.

Lemma concat_unlines (ls : list string) :
  String.concat CRLF (List.app ls [EmptyString]) = unlines ls.
Proof.
  induction ls as [|l ls IH]; [reflexivity | ].
  change (unlines (l :: ls)) with (l ++ CRLF ++ unlines ls). rewrite <- IH.
  destruct ls; reflexivity.
Qed.

Lemma line_sequence_inv (doc : string) :
  line_sequence doc = true ->
  exists ls, forallb single_line ls = true /\ doc = unlines ls.
Proof.
  unfold line_sequence. intros H.
  destruct (rev (split_crlf doc)) as [|last ls] eqn:Hrev; [discriminate | ].
  apply andb_prop in H as [Hlast Hls]. apply String.eqb_eq in Hlast. subst last.
  exists (rev ls). split; [now rewrite forallb_rev | ].
  rewrite <- concat_unlines, <- (concat_split doc) at 1. f_equal.
  rewrite <- (rev_involutive (split_crlf doc)), Hrev. reflexivity.
Qed.

(** One more single line, closed by CRLF, keeps a document well formed. *)
Lemma line_sequence_append_line (doc l : string) :
  line_sequence doc = true -> single_line l = true ->
  line_sequence (doc ++ l ++ CRLF) = true.
Proof.
  intros Hdoc Hl. destruct (line_sequence_inv doc Hdoc) as (ls & Hls & ->).
  replace (unlines ls ++ l ++ CRLF) with (unlines (List.app ls [l])).
  - apply line_sequence_unlines. rewrite forallb_app, Hls. simpl. now rewrite Hl.
  - rewrite unlines_app. reflexivity.
Qed.

Lemma dec_unsigned_single_line (n : N) : single_line (dec_unsigned n) = true.
Proof.
  unfold single_line. now rewrite !dec_unsigned_lacks by auto.
Qed.

End LineInvariant.

(** ** The line invariant on the paths that keep it *)

Section LinesKept.

Lemma single_line_app (a b : string) :
  single_line (a ++ b) = single_line a && single_line b.
Proof.
  unfold single_line. rewrite !lacks_append.
  destruct (lacks CR a), (lacks CR b), (lacks LF a), (lacks LF b); reflexivity.
Qed.

(** X23. A bare attribute whose name is a single line keeps a well-formed
    document well formed. *)
Theorem sdp_AddAttribute_bare_keeps_lines (sdp : loc) (name : string) (m : store)
    (doc : string) (g : grant) (t : list grant) :
  text_at m sdp = Some doc -> tape m = g :: t -> granted g = true ->
  line_sequence doc = true -> single_line name = true ->
  exists r m' doc',
    sdp_AddAttribute sdp name None [] m = Ret (Some r, sdp) m'
    /\ text_at m' r = Some doc'
    /\ line_sequence doc' = true.
Proof.
  intros Hdoc Ht Hg Hseq Hname.
  destruct (sdp_AddAttribute_bare_step sdp name m doc g t Hdoc Ht Hg) as (r & Hrun & _).
  eexists r, _, _. split; [exact Hrun | ]. split.
  - apply text_at_replace. rewrite length_append, bare_line_length. lia.
  - change (doc ++ "a=" ++ name ++ CRLF) with (doc ++ ("a=" ++ name) ++ CRLF).
    apply line_sequence_append_line; [exact Hseq | ].
    now rewrite single_line_app, Hname.
Qed.

(** X24. A media append without attributes, with a type and a protocol
    that are single lines, keeps a well-formed document well formed. *)
Theorem sdp_AddMedia_keeps_lines (NDEBUG : bool) (sdp : loc)
    (type protocol : option string) (dport : Z)
    (pt : N) (bw_indep : bool) (bw : N) (m : store) (doc : string)
    (g : grant) (t : list grant) :
  text_at m sdp = Some doc -> tape m = g :: t -> granted g = true ->
  (0 <= dport < 2 ^ 31)%Z -> (pt < 128)%N ->
  line_sequence doc = true ->
  single_line (default "video" type) = true ->
  single_line (default "RTP/AVP" protocol) = true ->
  exists r m' doc',
    sdp_AddMedia NDEBUG sdp type protocol dport pt bw_indep bw None None m
      = Ret (Some r, r) m'
    /\ text_at m' r = Some doc'
    /\ line_sequence doc' = true.
Proof.
  intros Hdoc Ht Hg Hport Hpt Hseq Htype Hproto.
  destruct (sdp_AddMedia_plain_step NDEBUG sdp type protocol dport pt bw_indep bw m doc g t
              Hdoc Ht Hg Hport Hpt) as (r & Hrun & _).
  eexists r, _, _. split; [exact Hrun | ]. split; [apply text_at_replace; lia | ].
  set (l := "m=" ++ default "video" type ++ " " ++ dec_unsigned (Z.to_N dport) ++ " "
            ++ default "RTP/AVP" protocol ++ " " ++ dec_unsigned pt).
  replace (doc ++ media_block type protocol dport pt)
    with ((doc ++ l ++ CRLF) ++ "b=RR:0" ++ CRLF).
  - apply line_sequence_append_line; [ | reflexivity].
    apply line_sequence_append_line; [exact Hseq | ].
    unfold l. rewrite !single_line_app, Htype, Hproto, !dec_unsigned_single_line.
    reflexivity.
  - unfold l, media_block. rewrite !append_assoc. reflexivity.
Qed.

End LinesKept.

Lemma sdp_AddAttribute_bare_keeps_lines_witness :
  exists r m' doc',
    sdp_AddAttribute 1%positive "recvonly" None [] (Sample.one_doc Sample.stub [InPlace])
      = Ret (Some r, 1%positive) m'
    /\ text_at m' r = Some doc'
    /\ line_sequence doc' = true.
Proof.
  apply (sdp_AddAttribute_bare_keeps_lines 1%positive "recvonly"
           (Sample.one_doc Sample.stub [InPlace]) Sample.stub InPlace []);
    reflexivity.
Defined.

Lemma sdp_AddMedia_keeps_lines_witness :
  exists r m' doc',
    sdp_AddMedia false 1%positive None None 5004 96 false 0 None None
      (Sample.one_doc Sample.stub [InPlace]) = Ret (Some r, r) m'
    /\ text_at m' r = Some doc'
    /\ line_sequence doc' = true.
Proof.
  apply (sdp_AddMedia_keeps_lines false 1%positive None None 5004 96 false 0
           (Sample.one_doc Sample.stub [InPlace]) Sample.stub InPlace []);
    try reflexivity; lia.
Defined.
